(** * Moltbook-Wrapper: the PII detector and the safe-posting policy

    A shallow embedding of [src/pii_detector.py] and of the policy layer of
    [src/moltbook.py], with the properties of the specification stated and
    proved over it.

    Conventions of the embedding.
    - A Python [str] is a [string] over the code points 0..255 (Latin-1);
      [str.lower], [str.strip] and the classes [\d] and [\s] are written out
      for that range as CPython defines them.
    - A Python [set] of strings is a [gset string]; a [for] loop over it
      visits [elements].
    - Methods that mutate [self] are functions from detector to detector;
      methods that only read are functions of the detector.  [call] packs
      both as return value plus state after the call.
    - The compiled static patterns are values of a small regular-expression
      syntax with a greedy, backtracking matcher (the discipline of
      Python's [re]).  Custom patterns are arbitrary user strings: for them
      the engine is a parameter of the development. *)

From stdpp Require Import gmap strings list.
From Stdlib Require Import Ascii String Bool Arith Lia.

Open Scope string_scope.
Open Scope nat_scope.

(* ================================================================== *)
(** ** Python strings *)
(* ================================================================== *)

Module Py.

Definition code (a : ascii) : nat := nat_of_ascii a.

(** [\d] on a [str] pattern: decimal digits; below 256 these are 0-9. *)
Definition is_digit (a : ascii) : bool :=
  (48 <=? code a) && (code a <=? 57).

(** [Py_UNICODE_ISSPACE], used by [str.strip()] and by [\s]. *)
Definition is_space (a : ascii) : bool :=
  let c := code a in
  ((9 <=? c) && (c <=? 13)) || ((28 <=? c) && (c <=? 32))
  || (c =? 133) || (c =? 160).

Definition is_upper (a : ascii) : bool :=
  let c := code a in
  ((65 <=? c) && (c <=? 90)) || ((192 <=? c) && (c <=? 214))
  || ((216 <=? c) && (c <=? 222)).

Definition is_alpha_ascii (a : ascii) : bool :=
  let c := code a in
  ((65 <=? c) && (c <=? 90)) || ((97 <=? c) && (c <=? 122)).

Definition lower_char (a : ascii) : ascii :=
  if is_upper a then ascii_of_nat (code a + 32) else a.

(** [s.lower()] *)
Fixpoint lower (s : string) : string :=
  match s with
  | EmptyString => EmptyString
  | String a s' => String (lower_char a) (lower s')
  end.

(** [s.lstrip()] *)
Fixpoint lstrip (s : string) : string :=
  match s with
  | EmptyString => EmptyString
  | String a s' => if is_space a then lstrip s' else s
  end.

(** [s.rstrip()] *)
Fixpoint rstrip (s : string) : string :=
  match s with
  | EmptyString => EmptyString
  | String a s' =>
      match rstrip s' with
      | EmptyString => if is_space a then EmptyString else String a EmptyString
      | r => String a r
      end
  end.

(** [s.strip()] *)
Definition strip (s : string) : string := rstrip (lstrip s).

(** [s.lstrip(c)] for a one-character argument *)
Fixpoint lstrip_char (c : ascii) (s : string) : string :=
  match s with
  | EmptyString => EmptyString
  | String a s' => if Ascii.eqb a c then lstrip_char c s' else s
  end.

(** [s.startswith(p)] *)
Fixpoint startswith (p s : string) : bool :=
  match p, s with
  | EmptyString, _ => true
  | String _ _, EmptyString => false
  | String a p', String b s' => Ascii.eqb a b && startswith p' s'
  end.

(** [p in s]: [p] occurs in [s] as a contiguous substring. *)
Fixpoint contains (p s : string) : bool :=
  startswith p s ||
  match s with
  | EmptyString => false
  | String _ s' => contains p s'
  end.

(** [re.sub(r'[^\d]', '', s)]: every character that is not a digit is
    deleted. *)
Fixpoint digits_only (s : string) : string :=
  match s with
  | EmptyString => EmptyString
  | String a s' => if is_digit a then String a (digits_only s') else digits_only s'
  end.

(** [s.replace(old, new)] for a non-empty [old]: scan left to right; an
    occurrence found at the current position is replaced and the scan
    resumes after it ([skip] counts the characters of the occurrence still
    to be passed over). *)
Fixpoint replace_from (old new : string) (skip : nat) (s : string) : string :=
  match s with
  | EmptyString => EmptyString
  | String a s' =>
      match skip with
      | S n => replace_from old new n s'
      | O =>
          if startswith old s
          then new +:+ replace_from old new (String.length old - 1) s'
          else String a (replace_from old new 0 s')
      end
  end.

(** [s.replace("", new)]: [new] before every character and at the end. *)
Fixpoint interleave (new s : string) : string :=
  match s with
  | EmptyString => new
  | String a s' => new +:+ String a (interleave new s')
  end.

(** [s.replace(old, new)] *)
Definition replace (old new s : string) : string :=
  match old with
  | EmptyString => interleave new s
  | String _ _ => replace_from old new 0 s
  end.

End Py.

(* ================================================================== *)
(** ** Regular expressions of the static table *)
(* ================================================================== *)

Module Re.

(** The constructs that occur in [PII_PATTERNS]: a character class, a
    sequence, an optional group [r?], and a counted repetition of a class
    [c{lo,hi}] ([hi = None]: unbounded, as in [+] and [{2,}]). *)
Inductive regex : Type :=
| Cls (c : ascii -> bool)
| Cat (r1 r2 : regex)
| Opt (r : regex)
| Rep (c : ascii -> bool) (lo : nat) (hi : option nat).

Definition may_repeat (hi : option nat) : bool :=
  match hi with
  | None => true
  | Some O => false
  | Some (S _) => true
  end.

Definition one_less (hi : option nat) : option nat :=
  match hi with
  | None => None
  | Some n => Some (pred n)
  end.

(** Greedy repetition: take one more character while allowed, and give
    back only if the continuation [k] fails afterwards. *)
Fixpoint rep (c : ascii -> bool) (lo : nat) (hi : option nat) (s : string)
    (k : string -> option string) {struct s} : option string :=
  let stop := if lo =? 0 then k s else None in
  match s with
  | EmptyString => stop
  | String a s' =>
      if c a && may_repeat hi then
        match rep c (pred lo) (one_less hi) s' k with
        | Some r => Some r
        | None => stop
        end
      else stop
  end.

(** [m r s k]: match [r] at the start of [s], then [k] on what is left;
    the first success in Python's priority order (greedy first). *)
Fixpoint m (r : regex) (s : string) (k : string -> option string) : option string :=
  match r with
  | Cls c =>
      match s with
      | String a s' => if c a then k s' else None
      | EmptyString => None
      end
  | Cat r1 r2 => m r1 s (fun s1 => m r2 s1 k)
  | Opt r1 =>
      match m r1 s k with
      | Some x => Some x
      | None => k s
      end
  | Rep c lo hi => rep c lo hi s k
  end.

(** [pattern.match(s)]: the text left after the match, if any. *)
Definition match_at (r : regex) (s : string) : option string := m r s Some.

(** [pattern.search(s) is not None] *)
Fixpoint search (r : regex) (s : string) : bool :=
  match match_at r s with
  | Some _ => true
  | None =>
      match s with
      | EmptyString => false
      | String _ s' => search r s'
      end
  end.

(** [pattern.sub(repl, s)] for a literal [repl]: leftmost matches, not
    overlapping, each replaced by [repl]; [skip] counts the characters of
    the current match still to be passed over.  A match of length zero
    (none of the table's patterns has one) leaves the character in place
    after the inserted [repl]. *)
Fixpoint sub_from (r : regex) (repl : string) (skip : nat) (s : string) : string :=
  match s with
  | EmptyString =>
      match skip, match_at r s with
      | O, Some _ => repl
      | _, _ => EmptyString
      end
  | String a s' =>
      match skip with
      | S n => sub_from r repl n s'
      | O =>
          match match_at r s with
          | Some rest =>
              match String.length s - String.length rest with
              | O => repl +:+ String a (sub_from r repl 0 s')
              | S n => repl +:+ sub_from r repl n s'
              end
          | None => String a (sub_from r repl 0 s')
          end
      end
  end.

Definition sub (r : regex) (repl s : string) : string := sub_from r repl 0 s.

(** *** Notation for building patterns *)

Definition chr (c : ascii) : ascii -> bool := fun a => Ascii.eqb a c.
Definition any_of (cs : string) : ascii -> bool :=
  fun a => existsb (Ascii.eqb a) (list_ascii_of_string cs).
Definition union (c1 c2 : ascii -> bool) : ascii -> bool := fun a => c1 a || c2 a.
Definition exactly (c : ascii -> bool) (n : nat) : regex := Rep c n (Some n).
Definition plus (c : ascii -> bool) : regex := Rep c 1 None.

End Re.

Declare Scope regex_scope.
Delimit Scope regex_scope with re.
Notation "r1 >> r2" := (Re.Cat r1 r2) (at level 60, right associativity) : regex_scope.

(* ================================================================== *)
(** ** The static pattern table [PII_PATTERNS] *)
(* ================================================================== *)

Module Patterns.
Import Re.

(** [[a-zA-Z0-9]] *)
Definition alnum : ascii -> bool := union Py.is_alpha_ascii Py.is_digit.
(** [[-.\s]] *)
Definition sep : ascii -> bool := union (any_of "-.") Py.is_space.
(** [[-\s]] *)
Definition dash_space : ascii -> bool := union (chr "-") Py.is_space.
Definition d : ascii -> bool := Py.is_digit.

(** [[a-zA-Z0-9._%+-]+@[a-zA-Z0-9.-]+\.[a-zA-Z]{2,}] *)
Definition email : regex :=
  (plus (union alnum (any_of "._%+-")) >> Cls (chr "@") >>
   plus (union alnum (any_of ".-")) >> Cls (chr ".") >>
   Rep Py.is_alpha_ascii 2 None)%re.

(** [(\+?1[-.\s]?)?(\(?\d{3}\)?[-.\s]?)?\d{3}[-.\s]?\d{4}] *)
Definition phone : regex :=
  (Opt (Opt (Cls (chr "+")) >> Cls (chr "1") >> Opt (Cls sep)) >>
   Opt (Opt (Cls (chr "(")) >> exactly d 3 >> Opt (Cls (chr ")")) >> Opt (Cls sep)) >>
   exactly d 3 >> Opt (Cls sep) >> exactly d 4)%re.

(** [\d{3}-\d{2}-\d{4}] *)
Definition ssn : regex :=
  (exactly d 3 >> Cls (chr "-") >> exactly d 2 >> Cls (chr "-") >> exactly d 4)%re.

(** [\d{4}[-\s]?\d{4}[-\s]?\d{4}[-\s]?\d{4}] *)
Definition credit_card : regex :=
  (exactly d 4 >> Opt (Cls dash_space) >> exactly d 4 >> Opt (Cls dash_space) >>
   exactly d 4 >> Opt (Cls dash_space) >> exactly d 4)%re.

(** [\d{1,3}\.\d{1,3}\.\d{1,3}\.\d{1,3}] *)
Definition ip_address : regex :=
  (Rep d 1 (Some 3) >> Cls (chr ".") >> Rep d 1 (Some 3) >> Cls (chr ".") >>
   Rep d 1 (Some 3) >> Cls (chr ".") >> Rep d 1 (Some 3))%re.

(** [\d{1,2}[-/]\d{1,2}[-/]\d{2,4}] *)
Definition date : regex :=
  (Rep d 1 (Some 2) >> Cls (any_of "-/") >> Rep d 1 (Some 2) >> Cls (any_of "-/") >>
   Rep d 2 (Some 4))%re.

End Patterns.

(** The dictionary, in insertion order (the order of its [items()]). *)
Definition PII_PATTERNS : list (string * Re.regex) :=
  [ ("email", Patterns.email); ("phone", Patterns.phone); ("ssn", Patterns.ssn);
    ("credit_card", Patterns.credit_card); ("ip_address", Patterns.ip_address);
    ("date", Patterns.date) ].

(* ================================================================== *)
(** ** The detector [PIIDetector] *)
(* ================================================================== *)

(** The instance attributes.  [_custom_patterns] holds compiled pattern
    objects; Python compares and hashes them by source text and flags, and
    the flags are always [re.IGNORECASE], so the set is kept as the set of
    the source texts. *)
Record PIIDetector : Type := mkDetector {
  _creator_names : gset string;
  _creator_handles : gset string;
  _creator_locations : gset string;
  _creator_employers : gset string;
  _creator_family : gset string;
  _creator_phone : gset string;
  _creator_email : gset string;
  _creator_addresses : gset string;
  _custom_patterns : gset string
}.

(** [PIIDetector()] *)
Definition new_detector : PIIDetector :=
  mkDetector ∅ ∅ ∅ ∅ ∅ ∅ ∅ ∅ ∅.

(** [for x in S: if test(x): return True] reaches its [return] iff some
    element passes the test. *)
Definition any_in (test : string -> bool) (S : gset string) : bool :=
  existsb test (elements S).

(** What a call can end in: a value, or an exception.  The exceptions are
    those that [re.compile] raises: [re.error] for a malformed pattern, and
    the built-in ones it raises on other patterns it does not compile (a
    repetition count that is too large, incompatible inline flags, a
    pattern nested too deeply). *)
Inductive exn : Type := re_error | OverflowError | ValueError | RecursionError.

Inductive outcome (A : Type) : Type :=
| Returned (a : A)
| Raised (e : exn).
Arguments Returned {A} a.
Arguments Raised {A} e.

(** *** Mutators of the creator sets *)

Definition add_creator_name (name : string) (self : PIIDetector) : PIIDetector :=
  let normalized := Py.strip (Py.lower name) in
  mkDetector ({[ normalized ]} ∪ _creator_names self) (_creator_handles self)
    (_creator_locations self) (_creator_employers self) (_creator_family self)
    (_creator_phone self) (_creator_email self) (_creator_addresses self)
    (_custom_patterns self).

Definition add_creator_handle (handle : string) (self : PIIDetector) : PIIDetector :=
  let normalized := Py.lstrip_char "@" (Py.strip (Py.lower handle)) in
  mkDetector (_creator_names self) ({[ normalized ]} ∪ _creator_handles self)
    (_creator_locations self) (_creator_employers self) (_creator_family self)
    (_creator_phone self) (_creator_email self) (_creator_addresses self)
    (_custom_patterns self).

Definition add_creator_location (location : string) (self : PIIDetector) : PIIDetector :=
  let normalized := Py.strip (Py.lower location) in
  mkDetector (_creator_names self) (_creator_handles self)
    ({[ normalized ]} ∪ _creator_locations self) (_creator_employers self)
    (_creator_family self) (_creator_phone self) (_creator_email self)
    (_creator_addresses self) (_custom_patterns self).

Definition add_creator_employer (employer : string) (self : PIIDetector) : PIIDetector :=
  let normalized := Py.strip (Py.lower employer) in
  mkDetector (_creator_names self) (_creator_handles self)
    (_creator_locations self) ({[ normalized ]} ∪ _creator_employers self)
    (_creator_family self) (_creator_phone self) (_creator_email self)
    (_creator_addresses self) (_custom_patterns self).

Definition add_creator_family (name : string) (self : PIIDetector) : PIIDetector :=
  let normalized := Py.strip (Py.lower name) in
  mkDetector (_creator_names self) (_creator_handles self)
    (_creator_locations self) (_creator_employers self)
    ({[ normalized ]} ∪ _creator_family self) (_creator_phone self)
    (_creator_email self) (_creator_addresses self) (_custom_patterns self).

Definition add_creator_phone (phone : string) (self : PIIDetector) : PIIDetector :=
  let normalized := Py.digits_only phone in
  mkDetector (_creator_names self) (_creator_handles self)
    (_creator_locations self) (_creator_employers self) (_creator_family self)
    ({[ normalized ]} ∪ _creator_phone self) (_creator_email self)
    (_creator_addresses self) (_custom_patterns self).

Definition add_creator_email (email : string) (self : PIIDetector) : PIIDetector :=
  let normalized := Py.strip (Py.lower email) in
  mkDetector (_creator_names self) (_creator_handles self)
    (_creator_locations self) (_creator_employers self) (_creator_family self)
    (_creator_phone self) ({[ normalized ]} ∪ _creator_email self)
    (_creator_addresses self) (_custom_patterns self).

Definition add_creator_address (address : string) (self : PIIDetector) : PIIDetector :=
  let normalized := Py.strip (Py.lower address) in
  mkDetector (_creator_names self) (_creator_handles self)
    (_creator_locations self) (_creator_employers self) (_creator_family self)
    (_creator_phone self) (_creator_email self)
    ({[ normalized ]} ∪ _creator_addresses self) (_custom_patterns self).

(** [clear_all] *)
Definition clear_all (self : PIIDetector) : PIIDetector :=
  mkDetector ∅ ∅ ∅ ∅ ∅ ∅ ∅ ∅ ∅.

(** [get_stats]: the nine counts, keyed as in the source. *)
Definition get_stats (self : PIIDetector) : list (string * nat) :=
  [ ("creator_names_count", size (_creator_names self));
    ("creator_handles_count", size (_creator_handles self));
    ("creator_locations_count", size (_creator_locations self));
    ("creator_employers_count", size (_creator_employers self));
    ("creator_family_count", size (_creator_family self));
    ("creator_phone_count", size (_creator_phone self));
    ("creator_email_count", size (_creator_email self));
    ("creator_address_count", size (_creator_addresses self));
    ("custom_patterns_count", size (_custom_patterns self)) ].

(** [d[key]] on a dictionary kept as an association list. *)
Fixpoint getitem {V : Type} (key : string) (d : list (string * V)) : option V :=
  match d with
  | [] => None
  | (k, v) :: d' => if String.eqb k key then Some v else getitem key d'
  end.

(** [_check_patterns] *)
Definition _check_patterns (text : string) : bool :=
  existsb (fun entry => Re.search entry.2 text) PII_PATTERNS.

(** [_check_creator_pii]: the eight loops, in the order of the source. *)
Definition _check_creator_pii (self : PIIDetector) (text : string) : bool :=
  let text_lower := Py.lower text in
  if any_in (fun name => Py.contains name text_lower) (_creator_names self) then true
  else if any_in (fun handle => Py.contains handle text_lower) (_creator_handles self) then true
  else if any_in (fun location => Py.contains location text_lower) (_creator_locations self) then true
  else if any_in (fun employer => Py.contains employer text_lower) (_creator_employers self) then true
  else if any_in (fun family => Py.contains family text_lower) (_creator_family self) then true
  else
    let text_nums := Py.digits_only text in
    if any_in (fun phone => Py.contains phone text_nums) (_creator_phone self) then true
    else if any_in (fun email => Py.contains email text_lower) (_creator_email self) then true
    else if any_in (fun address => Py.contains address text_lower) (_creator_addresses self) then true
    else false.

Section WithEngine.

(** Python's [re] on user-supplied patterns:
    [re_compiles p] says that [re.compile(p, re.IGNORECASE)] returns rather
    than raising; [re_raises p] is the exception it raises when it does
    not return; [re_search p text] is
    [re.compile(p, re.IGNORECASE).search(text) is not None]. *)
Variable re_compiles : string -> bool.
Variable re_raises : string -> exn.
Variable re_search : string -> string -> bool.

(** [re.compile(pattern, re.IGNORECASE)] *)
Definition re_compile (pattern : string) : outcome string :=
  if re_compiles pattern then Returned pattern else Raised (re_raises pattern).

(** [add_custom_pattern]: the [try] around the compilation, and the
    [except re.error: pass]; any other exception leaves the method. *)
Definition add_custom_pattern (pattern : string) (self : PIIDetector)
  : outcome unit * PIIDetector :=
  match re_compile pattern with
  | Returned compiled =>
      (Returned tt,
       mkDetector (_creator_names self) (_creator_handles self)
         (_creator_locations self) (_creator_employers self) (_creator_family self)
         (_creator_phone self) (_creator_email self) (_creator_addresses self)
         ({[ compiled ]} ∪ _custom_patterns self))
  | Raised re_error => (Returned tt, self)
  | Raised e => (Raised e, self)
  end.

(** [_check_custom_patterns] *)
Definition _check_custom_patterns (self : PIIDetector) (text : string) : bool :=
  any_in (fun pattern => re_search pattern text) (_custom_patterns self).

(** [contains_pii] *)
Definition contains_pii (self : PIIDetector) (text : string) : bool :=
  if _check_patterns text then true
  else if _check_creator_pii self text then true
  else if _check_custom_patterns self text then true
  else false.

(** [check_and_sanitize]: on a reported text every table pattern is
    substituted in turn, then every stored name, then every stored handle
    is replaced.  The placeholder is taken literally (it holds no
    backslash). *)
Definition check_and_sanitize (self : PIIDetector) (text placeholder : string)
  : bool * string :=
  if negb (contains_pii self text) then (false, text)
  else
    let sanitized := text in
    let sanitized :=
      fold_left (fun acc entry => Re.sub entry.2 placeholder acc)
        PII_PATTERNS sanitized in
    let sanitized :=
      fold_left (fun acc name => Py.replace name placeholder acc)
        (elements (_creator_names self)) sanitized in
    let sanitized :=
      fold_left (fun acc handle => Py.replace handle placeholder acc)
        (elements (_creator_handles self)) sanitized in
    (true, sanitized).

(** *** The methods as calls on a detector *)

Inductive method : Type :=
| AddCreatorName (name : string)
| AddCreatorHandle (handle : string)
| AddCreatorLocation (location : string)
| AddCreatorEmployer (employer : string)
| AddCreatorFamily (name : string)
| AddCreatorPhone (phone : string)
| AddCreatorEmail (email : string)
| AddCreatorAddress (address : string)
| AddCustomPattern (pattern : string)
| ContainsPii (text : string)
| CheckAndSanitize (text placeholder : string)
| ClearAll
| GetStats.

Inductive value : Type :=
| VNone
| VBool (b : bool)
| VPair (b : bool) (s : string)
| VStats (stats : list (string * nat)).

(** [call meth self]: what the call returns (or raises) and the detector
    after it. *)
Definition call (meth : method) (self : PIIDetector) : outcome value * PIIDetector :=
  match meth with
  | AddCreatorName x => (Returned VNone, add_creator_name x self)
  | AddCreatorHandle x => (Returned VNone, add_creator_handle x self)
  | AddCreatorLocation x => (Returned VNone, add_creator_location x self)
  | AddCreatorEmployer x => (Returned VNone, add_creator_employer x self)
  | AddCreatorFamily x => (Returned VNone, add_creator_family x self)
  | AddCreatorPhone x => (Returned VNone, add_creator_phone x self)
  | AddCreatorEmail x => (Returned VNone, add_creator_email x self)
  | AddCreatorAddress x => (Returned VNone, add_creator_address x self)
  | AddCustomPattern p =>
      match add_custom_pattern p self with
      | (Returned _, self') => (Returned VNone, self')
      | (Raised e, self') => (Raised e, self')
      end
  | ContainsPii text => (Returned (VBool (contains_pii self text)), self)
  | CheckAndSanitize text placeholder =>
      let '(b, s) := check_and_sanitize self text placeholder in
      (Returned (VPair b s), self)
  | ClearAll => (Returned VNone, clear_all self)
  | GetStats => (Returned (VStats (get_stats self)), self)
  end.

(** The detector after a sequence of calls, left to right (a call that
    raises leaves the detector as it was, and the next call is made). *)
Definition run (calls : list method) (self : PIIDetector) : PIIDetector :=
  fold_left (fun d meth => (call meth d).2) calls self.

(** *** Factory functions *)

(** [create_detector] *)
Definition create_detector : PIIDetector := new_detector.

(** Truth value of an [Optional[str]] argument: [None] and [""] are false. *)
Definition truthy (o : option string) : bool :=
  match o with
  | None => false
  | Some EmptyString => false
  | Some (String _ _) => true
  end.

(** An [Optional[str]] argument used as a string once it is known to be
    given. *)
Definition given (o : option string) : string := default "" o.

(** [create_detector_with_creator] *)
Definition create_detector_with_creator (name : string)
    (handle location employer : option string) : PIIDetector :=
  let detector := new_detector in
  let detector := add_creator_name name detector in
  let detector :=
    if truthy handle then add_creator_handle (given handle) detector else detector in
  let detector :=
    if truthy location then add_creator_location (given location) detector else detector in
  let detector :=
    if truthy employer then add_creator_employer (given employer) detector else detector in
  detector.

(* ================================================================== *)
(** ** The policy layer [SafeMoltbookCLI] *)
(* ================================================================== *)

(** The creator configuration: [None], or the dictionary read from the
    JSON file. *)
Definition config : Type := option (gmap string string).

(** [not config] *)
Definition config_missing (cfg : config) : bool :=
  match cfg with
  | None => true
  | Some d => bool_decide (d = ∅)
  end.

(** [d.get(key, "")] *)
Definition get_or_empty (d : gmap string string) (key : string) : string :=
  default "" (d !! key).

(** [_create_detector] *)
Definition _create_detector (cfg : config) : PIIDetector :=
  if config_missing cfg then
    create_detector_with_creator "" (Some "") (Some "") (Some "")
  else
    match cfg with
    | Some d =>
        create_detector_with_creator (get_or_empty d "name")
          (Some (get_or_empty d "handle")) (Some (get_or_empty d "location"))
          (Some (get_or_empty d "employer"))
    | None => create_detector_with_creator "" (Some "") (Some "") (Some "")
    end.

(** The attributes of the wrapper that the policy reads and writes (the
    transport client is outside: a call to it shows up as [Remote]). *)
Record SafeMoltbookCLI : Type := mkCLI {
  pii_detector : PIIDetector;
  pii_protection_enabled : bool;
  _posts_blocked : nat;
  _posts_allowed : nat
}.

(** [__init__], past the construction of the client. *)
Definition new_cli (creator_config : config) : SafeMoltbookCLI :=
  mkCLI (_create_detector creator_config) true 0 0.

Definition disable_pii_protection (self : SafeMoltbookCLI) : SafeMoltbookCLI :=
  mkCLI (pii_detector self) false (_posts_blocked self) (_posts_allowed self).

Definition enable_pii_protection (self : SafeMoltbookCLI) : SafeMoltbookCLI :=
  mkCLI (pii_detector self) true (_posts_blocked self) (_posts_allowed self).

(** [check_content]: the triple it returns, and the wrapper afterwards. *)
Definition check_content (content field : string) (self : SafeMoltbookCLI)
  : (bool * string * option string) * SafeMoltbookCLI :=
  if negb (pii_protection_enabled self) then
    ((true, "PII protection disabled", None), self)
  else if String.eqb content "" then
    ((true, "Empty content", None), self)
  else
    let '(has_pii, sanitized) :=
      check_and_sanitize (pii_detector self) content "[REDACTED]" in
    if has_pii then
      ((false, "PII detected in " +:+ field +:+ " - post blocked", Some sanitized),
       mkCLI (pii_detector self) (pii_protection_enabled self)
         (_posts_blocked self + 1) (_posts_allowed self))
    else
      ((true, field +:+ " is safe", None),
       mkCLI (pii_detector self) (pii_protection_enabled self)
         (_posts_blocked self) (_posts_allowed self + 1)).

(** Values of the result dictionaries. *)
Inductive json : Type :=
| JBool (b : bool)
| JStr (s : string).

(** The calls on the transport client that the policy can make. *)
Inductive request : Type :=
| PostCreate (submolt title content : string) (url : option string)
| CommentCreate (post_id content : string) (parent : option string).

(** What a handler ends with: a dictionary built locally, or the result of
    a call on the transport client. *)
Inductive result : Type :=
| Local (payload : list (string * json))
| Remote (req : request).

(** [safe_post_create] *)
Definition safe_post_create (submolt title content : string) (url : option string)
    (self : SafeMoltbookCLI) : result * SafeMoltbookCLI :=
  let '((title_safe, title_msg, _), self) := check_content title "title" self in
  if negb title_safe then
    (Local [ ("success", JBool false);
             ("error", JStr "PII Protection Blocked");
             ("details", JStr title_msg);
             ("suggestion", JStr "Remove personal information from title and try again") ],
     self)
  else
    let '((content_safe, content_msg, sanitized), self) :=
      check_content content "content" self in
    if negb content_safe then
      (Local [ ("success", JBool false);
               ("error", JStr "PII Protection Blocked");
               ("details", JStr content_msg);
               ("suggestion", JStr "Remove personal information from content and try again") ],
       self)
    else
      (Remote (PostCreate submolt title content url), self).

(** The [post comment] handler of [main]. *)
Definition post_comment (post_id content : string) (parent : option string)
    (cli : SafeMoltbookCLI) : result * SafeMoltbookCLI :=
  let '((is_safe, msg, _), cli) := check_content content "comment" cli in
  if negb is_safe then
    (Local [ ("success", JBool false);
             ("error", JStr "PII Protection Blocked");
             ("details", JStr msg) ],
     cli)
  else
    (Remote (CommentCreate post_id content parent), cli).

End WithEngine.

(* ================================================================== *)
(** ** An engine for closed examples *)
(* ================================================================== *)

(** Custom patterns written with letters, digits, spaces and round
    brackets only.  Python compiles such a pattern exactly when its
    brackets are balanced, and the compiled pattern, under
    [re.IGNORECASE], finds the text of the pattern without its brackets,
    in any casing. *)
Module Plain.

Fixpoint balanced (depth : nat) (p : string) : bool :=
  match p with
  | EmptyString => depth =? 0
  | String a p' =>
      if Ascii.eqb a "(" then balanced (S depth) p'
      else if Ascii.eqb a ")" then
        match depth with
        | O => false
        | S n => balanced n p'
        end
      else balanced depth p'
  end.

Fixpoint unbracket (p : string) : string :=
  match p with
  | EmptyString => EmptyString
  | String a p' =>
      if Ascii.eqb a "(" || Ascii.eqb a ")" then unbracket p'
      else String a (unbracket p')
  end.

Definition compiles (p : string) : bool := balanced 0 p.

(** Unbalanced brackets make [re.compile] raise [re.error]. *)
Definition raises (p : string) : exn := re_error.

Definition search (p text : string) : bool :=
  Py.contains (Py.lower (unbracket p)) (Py.lower text).

End Plain.

(** The engine [Plain] with one more pattern: the repetition count of
    ["a{99999999999999999999}"] is too large, and [re.compile] raises
    [OverflowError] on it, not [re.error]. *)
Module Counted.

Definition too_large : string := "a{99999999999999999999}".

Definition compiles (p : string) : bool :=
  negb (String.eqb p too_large) && Plain.compiles p.

Definition raises (p : string) : exn :=
  if String.eqb p too_large then OverflowError else re_error.

Definition search (p text : string) : bool := Plain.search p text.

End Counted.

(* ================================================================== *)
(** ** Vocabulary of the specification *)
(* ================================================================== *)

(** The eight categories of creator secrets. *)
Inductive category : Type :=
| Name | Handle | Location | Employer | Family | Phone | Email | Address.

Definition categories : list category :=
  [Name; Handle; Location; Employer; Family; Phone; Email; Address].

(** The set that holds the secrets of a category. *)
Definition secrets (c : category) (self : PIIDetector) : gset string :=
  match c with
  | Name => _creator_names self
  | Handle => _creator_handles self
  | Location => _creator_locations self
  | Employer => _creator_employers self
  | Family => _creator_family self
  | Phone => _creator_phone self
  | Email => _creator_email self
  | Address => _creator_addresses self
  end.

(** The text a secret of the category is looked up in: digits only for
    phone numbers, case-folded for the rest. *)
Definition normalized_text (c : category) (text : string) : string :=
  match c with
  | Phone => Py.digits_only text
  | _ => Py.lower text
  end.

(** A count of [get_stats], by key. *)
Definition count (key : string) (self : PIIDetector) : option nat :=
  getitem key (get_stats self).

(** The key of the count that an [add*] call feeds; [None] for the calls
    that are not [add*]. *)
Definition stats_key (meth : method) : option string :=
  match meth with
  | AddCreatorName _ => Some "creator_names_count"
  | AddCreatorHandle _ => Some "creator_handles_count"
  | AddCreatorLocation _ => Some "creator_locations_count"
  | AddCreatorEmployer _ => Some "creator_employers_count"
  | AddCreatorFamily _ => Some "creator_family_count"
  | AddCreatorPhone _ => Some "creator_phone_count"
  | AddCreatorEmail _ => Some "creator_email_count"
  | AddCreatorAddress _ => Some "creator_address_count"
  | AddCustomPattern _ => Some "custom_patterns_count"
  | _ => None
  end.

(** Whether an [add*] call registers its value. *)
Definition registers (re_compiles : string -> bool) (meth : method) : bool :=
  match meth with
  | AddCustomPattern pattern => re_compiles pattern
  | _ => true
  end.

(** Every character is a decimal digit. *)
Fixpoint all_digits (v : string) : bool :=
  match v with
  | EmptyString => true
  | String a v' => Py.is_digit a && all_digits v'
  end.

(** A value that is its own case-folded, whitespace-trimmed form. *)
Definition folded_and_trimmed (v : string) : bool :=
  String.eqb (Py.strip (Py.lower v)) v.

(** Normal form of a stored value as the specification words it: folded
    and trimmed in every category, a handle moreover without a leading
    [@], a phone number moreover made of digits. *)
Definition normalized_as_stated (c : category) (v : string) : bool :=
  folded_and_trimmed v &&
  match c with
  | Handle => negb (Py.startswith "@" v)
  | Phone => all_digits v
  | _ => true
  end.

(** Normal form of a stored value as the mutators establish it: for a
    handle, case-folded, no whitespace at the end and no leading [@]; for
    the other categories as stated. *)
Definition normalized (c : category) (v : string) : bool :=
  match c with
  | Handle =>
      String.eqb (Py.lower v) v && String.eqb (Py.rstrip v) v
      && negb (Py.startswith "@" v)
  | _ => normalized_as_stated c v
  end.

(** Every stored value satisfies [P] for its category. *)
Definition all_secrets (P : category -> string -> bool) (self : PIIDetector) : Prop :=
  forall c v, v ∈ secrets c self -> P c v = true.

(** The configuration supplies no name: there is no configuration, or it
    has no ["name"] key. *)
Definition no_name_key (cfg : config) : Prop :=
  match cfg with
  | None => True
  | Some d => d !! "name" = None
  end.

(** The first character, if there is one, is not whitespace. *)
Definition starts_solid (s : string) : Prop :=
  match s with
  | EmptyString => True
  | String a _ => Py.is_space a = false
  end.

(** The last character exists and is not whitespace. *)
Fixpoint ends_solid (s : string) : bool :=
  match s with
  | EmptyString => false
  | String a EmptyString => negb (Py.is_space a)
  | String _ s' => ends_solid s'
  end.

(** Every character of [s] is in the class [c]. *)
Fixpoint all_in (c : ascii -> bool) (s : string) : bool :=
  match s with
  | EmptyString => true
  | String a s' => c a && all_in c s'
  end.

(** A repetition count [n] is allowed by the upper bound [hi]. *)
Definition within (n : nat) (hi : option nat) : bool :=
  match hi with
  | None => true
  | Some h => n <=? h
  end.

(** The texts that a pattern of the table denotes, independently of how
    the matcher searches for them. *)
Inductive lang : Re.regex -> string -> Prop :=
| lang_cls (c : ascii -> bool) (a : ascii) :
    c a = true -> lang (Re.Cls c) (String a EmptyString)
| lang_cat (r1 r2 : Re.regex) (s1 s2 : string) :
    lang r1 s1 -> lang r2 s2 -> lang (Re.Cat r1 r2) (s1 +:+ s2)
| lang_opt_skip (r : Re.regex) : lang (Re.Opt r) EmptyString
| lang_opt_take (r : Re.regex) (s : string) : lang r s -> lang (Re.Opt r) s
| lang_rep (c : ascii -> bool) (lo : nat) (hi : option nat) (s : string) :
    all_in c s = true -> lo <= String.length s ->
    within (String.length s) hi = true -> lang (Re.Rep c lo hi) s.

(** [mid] occurs in [s]: some text before it, some text after it. *)
Definition occurs_in (mid s : string) : Prop :=
  exists pre post, s = pre +:+ mid +:+ post.

(** A character that a table pattern cannot do without: a digit, or [@]. *)
Definition digit_or_at (a : ascii) : bool := Py.is_digit a || Ascii.eqb a "@".

(** Some character of [s] is in the class [c]. *)
Fixpoint some_in (c : ascii -> bool) (s : string) : bool :=
  match s with
  | EmptyString => false
  | String a s' => c a || some_in c s'
  end.

(** Every character of the class [c] is in the class [c']. *)
Definition class_within (c c' : ascii -> bool) : bool :=
  forallb (fun n => implb (c (ascii_of_nat n)) (c' (ascii_of_nat n))) (seq 0 256).

(** A sufficient test that every text of a pattern holds a character of
    the class [c']. *)
Fixpoint needs (c' : ascii -> bool) (r : Re.regex) : bool :=
  match r with
  | Re.Cls c => class_within c c'
  | Re.Cat r1 r2 => needs c' r1 || needs c' r2
  | Re.Opt _ => false
  | Re.Rep c lo _ => (0 <? lo) && class_within c c'
  end.

(** The form in which a mutator of the category stores its argument. *)
Definition stored_form (c : category) (value : string) : string :=
  match c with
  | Handle => Py.lstrip_char "@" (Py.strip (Py.lower value))
  | Phone => Py.digits_only value
  | _ => Py.strip (Py.lower value)
  end.

(** The category and the argument of a call that feeds a creator set. *)
Definition creator_add (meth : method) : option (category * string) :=
  match meth with
  | AddCreatorName x => Some (Name, x)
  | AddCreatorHandle x => Some (Handle, x)
  | AddCreatorLocation x => Some (Location, x)
  | AddCreatorEmployer x => Some (Employer, x)
  | AddCreatorFamily x => Some (Family, x)
  | AddCreatorPhone x => Some (Phone, x)
  | AddCreatorEmail x => Some (Email, x)
  | AddCreatorAddress x => Some (Address, x)
  | _ => None
  end.

(** The keys of the creator configuration that the wrapper reads, with the
    category each one feeds. *)
Definition config_keys : list (string * category) :=
  [ ("name", Name); ("handle", Handle); ("location", Location);
    ("employer", Employer) ].

(** What [_create_detector] passes on for a key: the empty string when
    there is no configuration or the key is missing. *)
Definition config_value (cfg : config) (key : string) : string :=
  match cfg with
  | None => ""
  | Some d => get_or_empty d key
  end.

(** A field passes the policy: protection is off, or the field is empty,
    or the detector does not report it. *)
Definition passes (re_search : string -> string -> bool)
    (cli : SafeMoltbookCLI) (field_text : string) : bool :=
  negb (pii_protection_enabled cli) || String.eqb field_text ""
  || negb (contains_pii re_search (pii_detector cli) field_text).

(** A check of the field reaches the detector: protection is on and the
    field is not empty. *)
Definition consulted (cli : SafeMoltbookCLI) (field_text : string) : bool :=
  pii_protection_enabled cli && negb (String.eqb field_text "").

(** The refusal of [safe_post_create] for a field. *)
Definition post_refusal (field : string) : list (string * json) :=
  [ ("success", JBool false);
    ("error", JStr "PII Protection Blocked");
    ("details", JStr ("PII detected in " +:+ field +:+ " - post blocked"));
    ("suggestion",
     JStr ("Remove personal information from " +:+ field +:+ " and try again")) ].

(** What a session does with the wrapper. *)
Inductive action : Type :=
| SafePostCreate (submolt title content : string) (url : option string)
| PostComment (post_id content : string) (parent : option string)
| CheckContent (content field : string)
| EnablePiiProtection
| DisablePiiProtection.

(** The wrapper after an action. *)
Definition act (re_search : string -> string -> bool) (a : action)
    (cli : SafeMoltbookCLI) : SafeMoltbookCLI :=
  match a with
  | SafePostCreate submolt title content url =>
      (safe_post_create re_search submolt title content url cli).2
  | PostComment post_id content parent =>
      (post_comment re_search post_id content parent cli).2
  | CheckContent content field => (check_content re_search content field cli).2
  | EnablePiiProtection => enable_pii_protection cli
  | DisablePiiProtection => disable_pii_protection cli
  end.

(** The wrapper after a sequence of actions, left to right. *)
Definition session (re_search : string -> string -> bool) (actions : list action)
    (cli : SafeMoltbookCLI) : SafeMoltbookCLI :=
  fold_left (fun cli a => act re_search a cli) actions cli.

(** A run of digits whose length lies between [lo] and [hi]. *)
Definition digit_run (lo hi : nat) (s : string) : bool :=
  all_in Py.is_digit s && (lo <=? String.length s) && (String.length s <=? hi).

(** Nothing, or one character of the class [c]. *)
Definition opt_char (c : ascii -> bool) (s : string) : bool :=
  match s with
  | EmptyString => true
  | String a EmptyString => c a
  | String _ (String _ _) => false
  end.

(** Exactly one character of the class [c]. *)
Definition one_char (c : ascii -> bool) (s : string) : bool :=
  match s with
  | String a EmptyString => c a
  | _ => false
  end.

(** An argument that a mutator of the category stores as the empty
    string: a phone number without a digit, a handle that is trimmed to
    nothing but [@] signs, or else a value made of whitespace only. *)
Definition blank (c : category) (value : string) : bool :=
  match c with
  | Phone => negb (some_in Py.is_digit value)
  | Handle => all_in (Re.chr "@") (Py.strip value)
  | _ => all_in Py.is_space value
  end.

(** The refusal of the [post comment] handler. *)
Definition comment_refusal : list (string * json) :=
  [ ("success", JBool false);
    ("error", JStr "PII Protection Blocked");
    ("details", JStr "PII detected in comment - post blocked") ].

(** One for [true], nothing for [false]. *)
Definition one_if (b : bool) : nat := if b then 1 else 0.

(** The session has no action that switches protection. *)
Definition keeps_switch (a : action) : bool :=
  match a with
  | EnablePiiProtection | DisablePiiProtection => false
  | _ => true
  end.

(** The placeholder holds no backslash: [pattern.sub] reads its
    replacement as a template, in which only the backslash is special, so
    such a placeholder is put in as it is written. *)
Definition no_backslash (placeholder : string) : bool :=
  negb (some_in (Re.chr "\") placeholder).

(** The three loops of [check_and_sanitize] with the set of names and the
    set of handles visited in a given order. *)
Definition sanitize_in_order (names handles : list string)
    (text placeholder : string) : string :=
  let sanitized := text in
  let sanitized :=
    fold_left (fun acc entry => Re.sub entry.2 placeholder acc)
      PII_PATTERNS sanitized in
  let sanitized :=
    fold_left (fun acc name => Py.replace name placeholder acc) names sanitized in
  let sanitized :=
    fold_left (fun acc handle => Py.replace handle placeholder acc) handles sanitized in
  sanitized.

(** The list visits the members of the set, each at least once, in some
    order. *)
Definition enumerates (l : list string) (S : gset string) : Prop :=
  forall x, In x l <-> x ∈ S.

(** No character of [s] occurs in [placeholder]. *)
Definition shares_no_char (placeholder s : string) : bool :=
  all_in (fun a => negb (some_in (Ascii.eqb a) placeholder)) s.

(** A stored value that [replace] can take out for good: it is not empty
    and has no character in common with the placeholder. *)
Definition removable (placeholder s : string) : bool :=
  negb (String.eqb s "") && shares_no_char placeholder s.

(** Case analysis over the 256 characters. *)
Ltac each_char a :=
  destruct a as [[] [] [] [] [] [] [] []]; vm_compute;
  try reflexivity; try discriminate.

(* ================================================================== *)
(** ** Loops over sets *)
(* ================================================================== *)

Lemma any_in_true (test : string -> bool) (S : gset string) :
  any_in test S = true <-> exists x, x ∈ S /\ test x = true.
Proof.
  unfold any_in. rewrite existsb_exists. split.
  - intros (x & Hin & Hx). exists x. split; [|exact Hx].
    apply elem_of_elements, list_elem_of_In. exact Hin.
  - intros (x & Hin & Hx). exists x. split; [|exact Hx].
    apply list_elem_of_In, elem_of_elements. exact Hin.
Qed.

Lemma any_in_empty (test : string -> bool) : any_in test ∅ = false.
Proof. unfold any_in. rewrite elements_empty. reflexivity. Qed.

Lemma any_in_member (test : string -> bool) (S : gset string) (x : string) :
  x ∈ S -> test x = true -> any_in test S = true.
Proof. intros Hin Hx. apply any_in_true. eauto. Qed.

Lemma contains_empty (s : string) : Py.contains "" s = true.
Proof. destruct s; reflexivity. Qed.

(** The chain of loops of [_check_creator_pii] as one existence
    statement. *)
Lemma check_creator_pii_true (self : PIIDetector) (text : string) :
  _check_creator_pii self text = true <->
  exists c secret,
    secret ∈ secrets c self /\ Py.contains secret (normalized_text c text) = true.
Proof.
  unfold _check_creator_pii. split.
  - intros H.
    repeat match type of H with
    | (if any_in ?f ?S then _ else _) = true =>
        let E := fresh "E" in
        destruct (any_in f S) eqn:E;
        [ apply any_in_true in E; destruct E as (x & Hin & Hx) | ]
    end;
    [ exists Name | exists Handle | exists Location | exists Employer
    | exists Family | exists Phone | exists Email | exists Address | discriminate H ];
    exists x; split; assumption.
  - intros (c & secret & Hin & Hsub).
    destruct c; simpl in Hin, Hsub;
      repeat match goal with
      | |- (if any_in ?f ?S then _ else _) = true =>
          let E := fresh "E" in
          destruct (any_in f S) eqn:E; [ reflexivity | ]
      end;
      match goal with
      | E : any_in ?f ?S = false, Hin : secret ∈ ?S |- _ =>
          rewrite (any_in_member f S secret Hin Hsub) in E; discriminate E
      end.
Qed.

Lemma check_patterns_true (text : string) :
  _check_patterns text = true <->
  exists name pattern, In (name, pattern) PII_PATTERNS /\ Re.search pattern text = true.
Proof.
  unfold _check_patterns. rewrite existsb_exists. split.
  - intros ([name pattern] & Hin & Hs). exists name, pattern. auto.
  - intros (name & pattern & Hin & Hs). exists (name, pattern). auto.
Qed.

(* ================================================================== *)
(** ** Detection *)
(* ================================================================== *)

Section Detection.

Variable re_search : string -> string -> bool.

Lemma check_custom_patterns_true (self : PIIDetector) (text : string) :
  _check_custom_patterns re_search self text = true <->
  exists pattern, pattern ∈ _custom_patterns self /\ re_search pattern text = true.
Proof. unfold _check_custom_patterns. apply any_in_true. Qed.

Lemma contains_pii_creator (self : PIIDetector) (text : string) :
  _check_creator_pii self text = true -> contains_pii re_search self text = true.
Proof.
  intros H. unfold contains_pii. rewrite H.
  destruct (_check_patterns text); reflexivity.
Qed.

Lemma contains_pii_custom (self : PIIDetector) (text : string) :
  _check_custom_patterns re_search self text = true ->
  contains_pii re_search self text = true.
Proof.
  intros H. unfold contains_pii. rewrite H.
  destruct (_check_patterns text), (_check_creator_pii self text); reflexivity.
Qed.

(** What [contains_pii] computes, for every detector: it answers true
    exactly when (a) a pattern of the static table matches the text, or
    (b) a stored creator secret occurs in the text as the lookup prepares
    it ([text_lower], and [text_nums] for a phone number), or (c) a
    registered custom pattern matches the text. *)
Theorem contains_pii_iff (self : PIIDetector) (text : string) :
  contains_pii re_search self text = true <->
    (exists name pattern,
        In (name, pattern) PII_PATTERNS /\ Re.search pattern text = true)
    \/ (exists c secret,
        secret ∈ secrets c self /\
        Py.contains secret (normalized_text c text) = true)
    \/ (exists pattern,
        pattern ∈ _custom_patterns self /\ re_search pattern text = true).
Proof.
  rewrite <- check_patterns_true, <- check_creator_pii_true,
    <- check_custom_patterns_true.
  unfold contains_pii.
  destruct (_check_patterns text); [ tauto | ].
  destruct (_check_creator_pii self text); [ tauto | ].
  destruct (_check_custom_patterns re_search self text); [ tauto | ].
  split; [ discriminate | intros [H | [H | H]]; discriminate H ].
Qed.

End Detection.

Section Queries.

Variable re_compiles : string -> bool.
Variable re_raises : string -> exn.
Variable re_search : string -> string -> bool.

(** C10.  Once ["555-123-4567"] is registered as a phone number, the text
    ["call 5551234567 now"] is reported: the stored value and the text are
    both reduced to their digits, ["5551234567"], and the creator check on
    its own already fires. *)
Theorem phone_formatting_ignored (self : PIIDetector) :
  let self' := (call re_compiles re_raises re_search (AddCreatorPhone "555-123-4567") self).2 in
  Py.digits_only "555-123-4567" = "5551234567"
  /\ Py.digits_only "call 5551234567 now" = "5551234567"
  /\ "5551234567" ∈ _creator_phone self'
  /\ _check_creator_pii self' "call 5551234567 now" = true
  /\ contains_pii re_search self' "call 5551234567 now" = true.
Proof.
  simpl.
  assert (Hin : "5551234567" ∈ _creator_phone (add_creator_phone "555-123-4567" self)).
  { simpl. change (Py.digits_only "555-123-4567") with "5551234567". set_solver. }
  assert (Hc : _check_creator_pii (add_creator_phone "555-123-4567" self)
                 "call 5551234567 now" = true).
  { apply check_creator_pii_true. exists Phone, "5551234567".
    split; [ exact Hin | reflexivity ]. }
  split; [ reflexivity | ]. split; [ reflexivity | ].
  split; [ exact Hin | ]. split; [ exact Hc | ].
  apply contains_pii_creator, Hc.
Qed.

(** C8.  After [clear_all] each of the nine counts of [get_stats] is zero,
    and [contains_pii] is decided by the static table alone: no creator
    secret and no custom pattern registered before takes part. *)
Theorem clear_all_resets (self : PIIDetector) (text : string) :
  let self' := (call re_compiles re_raises re_search ClearAll self).2 in
  Forall (fun entry => entry.2 = 0) (get_stats self')
  /\ List.length (get_stats self') = 9
  /\ (forall c, secrets c self' = ∅)
  /\ _custom_patterns self' = ∅
  /\ contains_pii re_search self' text = _check_patterns text.
Proof.
  simpl. split.
  { unfold get_stats, clear_all. simpl. repeat constructor. }
  split; [ reflexivity | ].
  split; [ intros c; destruct c; reflexivity | ].
  split; [ reflexivity | ].
  unfold contains_pii, _check_creator_pii, _check_custom_patterns, clear_all.
  simpl. rewrite !any_in_empty.
  destruct (_check_patterns text); reflexivity.
Qed.

(** C5.  On a text in which [contains_pii] finds nothing,
    [check_and_sanitize] returns [(False, text)], the text being the input
    itself, and the detector is the same after the call. *)
Theorem check_and_sanitize_clean (self : PIIDetector) (text placeholder : string) :
  contains_pii re_search self text = false ->
  check_and_sanitize re_search self text placeholder = (false, text)
  /\ call re_compiles re_raises re_search (CheckAndSanitize text placeholder) self
     = (Returned (VPair false text), self).
Proof.
  intros H. unfold call, check_and_sanitize. rewrite H. simpl. split; reflexivity.
Qed.

End Queries.

(* ================================================================== *)
(** ** Normalization of stored values *)
(* ================================================================== *)

Lemma lower_char_idem (a : ascii) : Py.lower_char (Py.lower_char a) = Py.lower_char a.
Proof. each_char a. Qed.

Lemma is_space_lower_char (a : ascii) : Py.is_space (Py.lower_char a) = Py.is_space a.
Proof. each_char a. Qed.

Lemma digit_lower_char (a : ascii) : Py.is_digit a = true -> Py.lower_char a = a.
Proof. each_char a. Qed.

Lemma digit_not_space (a : ascii) : Py.is_digit a = true -> Py.is_space a = false.
Proof. each_char a. Qed.

Lemma lower_idem (s : string) : Py.lower (Py.lower s) = Py.lower s.
Proof.
  induction s as [|a s IH]; simpl; [ reflexivity | ].
  rewrite lower_char_idem, IH. reflexivity.
Qed.

Lemma lower_lstrip (s : string) : Py.lower (Py.lstrip s) = Py.lstrip (Py.lower s).
Proof.
  induction s as [|a s IH]; simpl; [ reflexivity | ].
  rewrite is_space_lower_char. destruct (Py.is_space a); [ exact IH | reflexivity ].
Qed.

Lemma lower_rstrip (s : string) : Py.lower (Py.rstrip s) = Py.rstrip (Py.lower s).
Proof.
  induction s as [|a s IH]; simpl; [ reflexivity | ].
  rewrite <- IH, is_space_lower_char.
  destruct (Py.rstrip s) as [|b r]; simpl.
  - destruct (Py.is_space a); reflexivity.
  - reflexivity.
Qed.

Lemma lower_strip (s : string) : Py.lower (Py.strip s) = Py.strip (Py.lower s).
Proof. unfold Py.strip. rewrite lower_rstrip, lower_lstrip. reflexivity. Qed.

Lemma lstrip_starts_solid (s : string) : starts_solid (Py.lstrip s).
Proof.
  induction s as [|a s IH]; simpl; [ exact I | ].
  destruct (Py.is_space a) eqn:E; [ exact IH | exact E ].
Qed.

Lemma rstrip_starts_solid (s : string) : starts_solid s -> starts_solid (Py.rstrip s).
Proof.
  destruct s as [|a s]; simpl; [ trivial | ]. intros Ha.
  destruct (Py.rstrip s); [ rewrite Ha | ]; exact Ha.
Qed.

Lemma lstrip_solid (s : string) : starts_solid s -> Py.lstrip s = s.
Proof. destruct s as [|a s]; simpl; [ trivial | ]. intros ->. reflexivity. Qed.

Lemma rstrip_idem (s : string) : Py.rstrip (Py.rstrip s) = Py.rstrip s.
Proof.
  induction s as [|a s IH]; simpl; [ reflexivity | ].
  destruct (Py.rstrip s) as [|b r] eqn:E.
  - destruct (Py.is_space a) eqn:Ea; simpl; [ reflexivity | ]. rewrite Ea. reflexivity.
  - change (Py.rstrip (String a (String b r))) with
      (match Py.rstrip (String b r) with
       | EmptyString => if Py.is_space a then EmptyString else String a EmptyString
       | String c r' => String a (String c r')
       end).
    rewrite IH. reflexivity.
Qed.

Lemma strip_idem (s : string) : Py.strip (Py.strip s) = Py.strip s.
Proof.
  unfold Py.strip.
  rewrite (lstrip_solid (Py.rstrip (Py.lstrip s))).
  - apply rstrip_idem.
  - apply rstrip_starts_solid, lstrip_starts_solid.
Qed.

(** What [add_creator_name] and its five siblings store is folded and
    trimmed. *)
Lemma fold_trim_normal (x : string) :
  Py.strip (Py.lower (Py.strip (Py.lower x))) = Py.strip (Py.lower x).
Proof. rewrite lower_strip, lower_idem. apply strip_idem. Qed.

Lemma all_digits_digits_only (x : string) : all_digits (Py.digits_only x) = true.
Proof.
  induction x as [|a x IH]; simpl; [ reflexivity | ].
  destruct (Py.is_digit a) eqn:E; simpl; [ rewrite E | ]; exact IH.
Qed.

Lemma all_digits_lower (v : string) : all_digits v = true -> Py.lower v = v.
Proof.
  induction v as [|a v IH]; simpl; [ reflexivity | ].
  intros [Ha Hv]%andb_true_iff. rewrite (digit_lower_char a Ha), (IH Hv). reflexivity.
Qed.

Lemma all_digits_lstrip (v : string) : all_digits v = true -> Py.lstrip v = v.
Proof.
  destruct v as [|a v]; simpl; [ reflexivity | ].
  intros [Ha _]%andb_true_iff. rewrite (digit_not_space a Ha). reflexivity.
Qed.

Lemma all_digits_rstrip (v : string) : all_digits v = true -> Py.rstrip v = v.
Proof.
  induction v as [|a v IH]; simpl; [ reflexivity | ].
  intros [Ha Hv]%andb_true_iff. rewrite (IH Hv), (digit_not_space a Ha).
  destruct v; reflexivity.
Qed.

Lemma all_digits_fold_trim (v : string) :
  all_digits v = true -> Py.strip (Py.lower v) = v.
Proof.
  intros H. unfold Py.strip.
  rewrite (all_digits_lower v H), (all_digits_lstrip v H). apply all_digits_rstrip, H.
Qed.

Lemma lstrip_char_lower (c : ascii) (s : string) :
  Py.lower s = s -> Py.lower (Py.lstrip_char c s) = Py.lstrip_char c s.
Proof.
  induction s as [|a s IH]; simpl; [ reflexivity | ].
  intros H. injection H as Ha Hs.
  destruct (Ascii.eqb a c); [ exact (IH Hs) | ].
  simpl. rewrite Ha, Hs. reflexivity.
Qed.

Lemma rstrip_tail (a : ascii) (s : string) :
  Py.rstrip (String a s) = String a s -> Py.rstrip s = s.
Proof.
  simpl. destruct (Py.rstrip s) as [|b r].
  - destruct (Py.is_space a); [ discriminate | ]. intros H. injection H as <-. reflexivity.
  - intros H. injection H as <-. reflexivity.
Qed.

Lemma lstrip_char_rstrip (c : ascii) (s : string) :
  Py.rstrip s = s -> Py.rstrip (Py.lstrip_char c s) = Py.lstrip_char c s.
Proof.
  induction s as [|a s IH]; [ reflexivity | ].
  intros H. simpl Py.lstrip_char.
  destruct (Ascii.eqb a c); [ exact (IH (rstrip_tail a s H)) | exact H ].
Qed.

Lemma lstrip_char_no_lead (c : ascii) (s : string) :
  Py.startswith (String c EmptyString) (Py.lstrip_char c s) = false.
Proof.
  induction s as [|a s IH]; simpl; [ reflexivity | ].
  destruct (Ascii.eqb a c) eqn:E; [ exact IH | ].
  simpl. rewrite Ascii.eqb_sym, E. reflexivity.
Qed.

Lemma rstrip_strip (s : string) : Py.rstrip (Py.strip s) = Py.strip s.
Proof. unfold Py.strip. apply rstrip_idem. Qed.

Lemma rstrip_cons (a : ascii) (s : string) :
  Py.rstrip (String a s) =
  match Py.rstrip s with
  | EmptyString => if Py.is_space a then EmptyString else String a EmptyString
  | String b r => String a (String b r)
  end.
Proof. reflexivity. Qed.

Lemma contains_cons (p : string) (a : ascii) (s : string) :
  Py.contains p (String a s) = Py.startswith p (String a s) || Py.contains p s.
Proof. reflexivity. Qed.

Lemma rstrip_ends_solid (s : string) :
  Py.rstrip s <> "" -> ends_solid (Py.rstrip s) = true.
Proof.
  induction s as [|a s IH]; [ intros H; contradiction | ].
  rewrite rstrip_cons. destruct (Py.rstrip s) as [|b r].
  - destruct (Py.is_space a) eqn:E; [ intros H; contradiction | ].
    intros _. simpl. rewrite E. reflexivity.
  - intros _. change (ends_solid (String a (String b r))) with (ends_solid (String b r)).
    apply IH. discriminate.
Qed.

Lemma contains_lstrip (p s : string) :
  p <> "" -> starts_solid p -> Py.contains p (Py.lstrip s) = Py.contains p s.
Proof.
  destruct p as [|b p]; [ intros H; contradiction | ]. intros _ Hb. simpl in Hb.
  induction s as [|a s IH]; [ reflexivity | ].
  simpl Py.lstrip. destruct (Py.is_space a) eqn:Ea; [ | reflexivity ].
  rewrite IH, contains_cons. simpl Py.startswith.
  destruct (Ascii.eqb_spec b a) as [-> | _]; [ congruence | reflexivity ].
Qed.

Lemma startswith_rstrip (p s : string) :
  ends_solid p = true -> Py.startswith p (Py.rstrip s) = Py.startswith p s.
Proof.
  revert s. induction p as [|b p IH]; [ discriminate | ].
  intros s Hp. destruct s as [|a s]; [ reflexivity | ].
  rewrite rstrip_cons. destruct p as [|b' p].
  - simpl in Hp. apply negb_true_iff in Hp.
    destruct (Py.rstrip s) as [|c r]; simpl.
    + destruct (Py.is_space a) eqn:Ea; simpl; [ | reflexivity ].
      destruct (Ascii.eqb_spec b a) as [-> | _]; [ congruence | reflexivity ].
    + reflexivity.
  - change (ends_solid (String b (String b' p))) with (ends_solid (String b' p)) in Hp.
    specialize (IH s Hp).
    change (Py.startswith (String b (String b' p)) (String a s))
      with (Ascii.eqb b a && Py.startswith (String b' p) s).
    rewrite <- IH.
    destruct (Py.rstrip s) as [|c r].
    + destruct (Py.is_space a); simpl; rewrite ?andb_false_r; reflexivity.
    + reflexivity.
Qed.

Lemma contains_rstrip (p s : string) :
  ends_solid p = true -> Py.contains p (Py.rstrip s) = Py.contains p s.
Proof.
  intros Hp. induction s as [|a s IH]; [ reflexivity | ].
  rewrite contains_cons, <- (startswith_rstrip p (String a s) Hp), <- IH.
  rewrite rstrip_cons. destruct (Py.rstrip s) as [|c r].
  - destruct (Py.is_space a); simpl; rewrite ?orb_false_r, ?orb_diag; reflexivity.
  - reflexivity.
Qed.

Lemma trimmed_shape (p : string) :
  Py.strip p = p -> p <> "" -> starts_solid p /\ ends_solid p = true.
Proof.
  intros H Hne. rewrite <- H. unfold Py.strip. split.
  - apply rstrip_starts_solid, lstrip_starts_solid.
  - apply rstrip_ends_solid. fold (Py.strip p). rewrite H. exact Hne.
Qed.

(** A secret that is its own trimmed form occurs in the trimmed text
    exactly when it occurs in the text. *)
Lemma contains_strip (p s : string) :
  Py.strip p = p -> Py.contains p (Py.strip s) = Py.contains p s.
Proof.
  intros H. destruct (String.eqb_spec p "") as [-> | Hne].
  - rewrite !contains_empty. reflexivity.
  - destruct (trimmed_shape p H Hne) as [Hs He].
    unfold Py.strip. rewrite (contains_rstrip _ _ He). apply contains_lstrip; assumption.
Qed.

(** For a stored value in the normal form of the specification, looking it
    up in the case-folded text, as [_check_creator_pii] does, and looking it
    up in the case-folded and trimmed text give the same answer. *)
Lemma lookup_ignores_trimming (c : category) (secret text : string) :
  normalized_as_stated c secret = true ->
  Py.contains secret (Py.strip (Py.lower text)) = Py.contains secret (Py.lower text).
Proof.
  intros [H _]%andb_true_iff. unfold folded_and_trimmed in H.
  apply String.eqb_eq in H. apply contains_strip.
  transitivity (Py.strip (Py.strip (Py.lower secret))).
  - f_equal. symmetry. exact H.
  - rewrite strip_idem. exact H.
Qed.

Lemma stored_fold_trim (c : category) (x : string) :
  c <> Handle -> c <> Phone -> normalized c (Py.strip (Py.lower x)) = true.
Proof.
  intros Hh Hp.
  assert (E : folded_and_trimmed (Py.strip (Py.lower x)) = true).
  { unfold folded_and_trimmed. rewrite fold_trim_normal. apply String.eqb_refl. }
  destruct c; try congruence; unfold normalized, normalized_as_stated;
    rewrite E; reflexivity.
Qed.

Lemma stored_phone (x : string) : normalized Phone (Py.digits_only x) = true.
Proof.
  unfold normalized, normalized_as_stated, folded_and_trimmed.
  rewrite (all_digits_fold_trim _ (all_digits_digits_only x)).
  rewrite String.eqb_refl, all_digits_digits_only. reflexivity.
Qed.

Lemma stored_handle (x : string) :
  normalized Handle (Py.lstrip_char "@" (Py.strip (Py.lower x))) = true.
Proof.
  unfold normalized.
  rewrite lstrip_char_lower by (rewrite lower_strip, lower_idem; reflexivity).
  rewrite lstrip_char_rstrip by apply rstrip_strip.
  rewrite lstrip_char_no_lead, !String.eqb_refl. reflexivity.
Qed.

Lemma all_secrets_new (P : category -> string -> bool) : all_secrets P new_detector.
Proof. intros c v H. destruct c; simpl in H; set_solver. Qed.

Lemma add_again (x : string) (S : gset string) : {[ x ]} ∪ ({[ x ]} ∪ S) = {[ x ]} ∪ S.
Proof. rewrite (assoc_L (∪)), (idemp_L (∪)). reflexivity. Qed.

Lemma size_zero_add (x : string) (S : gset string) :
  size S = 0 -> size ({[ x ]} ∪ ({[ x ]} ∪ S)) = 1.
Proof.
  intros H. assert (S = ∅) as -> by (apply leibniz_equiv, size_empty_inv, H).
  rewrite add_again, union_empty_r_L. apply size_singleton.
Qed.

Lemma names_of_created (name : string) (handle location employer : option string) :
  _creator_names (create_detector_with_creator name handle location employer)
  = {[ Py.strip (Py.lower name) ]}.
Proof.
  unfold create_detector_with_creator.
  destruct (truthy handle), (truthy location), (truthy employer); simpl;
    apply union_empty_r_L.
Qed.

Lemma empty_name_registered (cfg : config) :
  no_name_key cfg -> "" ∈ _creator_names (_create_detector cfg).
Proof.
  intros H. unfold _create_detector.
  destruct (config_missing cfg); [ rewrite names_of_created; set_solver | ].
  destruct cfg as [d|]; rewrite names_of_created; [ | set_solver ].
  simpl in H. unfold get_or_empty. rewrite H. set_solver.
Qed.

Lemma empty_value_skipped (cfg : config) (key : string) (c : category) :
  In (key, c) config_keys -> c <> Name -> config_value cfg key = "" ->
  secrets c (_create_detector cfg) = ∅.
Proof.
  intros Hin Hc Hv. unfold _create_detector.
  assert (Hdefault : secrets c (create_detector_with_creator "" (Some "") (Some "") (Some ""))
                     = ∅).
  { simpl in Hin. destruct Hin as [H | [H | [H | [H | []]]]]; injection H as <- <-;
      try contradiction; reflexivity. }
  destruct (config_missing cfg); [ exact Hdefault | ].
  destruct cfg as [d|]; [ | exact Hdefault ].
  simpl in Hv, Hin. unfold create_detector_with_creator.
  destruct Hin as [H | [H | [H | [H | []]]]]; injection H as <- <-;
    try contradiction; rewrite Hv; change (truthy (Some "")) with false; cbv iota;
    repeat match goal with
    | |- context [truthy ?o] => destruct (truthy o)
    end; reflexivity.
Qed.

Section Mutation.

Variable re_compiles : string -> bool.
Variable re_raises : string -> exn.
Variable re_search : string -> string -> bool.

Lemma call_keeps_normalized (meth : method) (self : PIIDetector) :
  all_secrets normalized self ->
  all_secrets normalized (call re_compiles re_raises re_search meth self).2.
Proof.
  intros Inv c v.
  destruct meth; simpl;
    try (unfold add_custom_pattern, re_compile;
         destruct (re_compiles pattern); [ | destruct (re_raises pattern) ]; simpl);
    try (destruct (check_and_sanitize re_search self text placeholder); simpl);
    intros Hin; destruct c; simpl in Hin;
    match goal with
    | |- normalized ?c _ = true =>
        first
          [ exact (Inv c v Hin)
          | exfalso; revert Hin; apply not_elem_of_empty
          | apply elem_of_union in Hin as [Hin | Hin];
            [ apply elem_of_singleton in Hin; subst v;
              first [ apply stored_handle | apply stored_phone
                    | apply stored_fold_trim; discriminate ]
            | exact (Inv c v Hin) ] ]
    end.
Qed.

(** What the mutators do establish.  From a fresh detector, after any
    sequence of calls, every value held in the sets for names, locations,
    employers, family names, e-mail addresses and addresses is its own
    case-folded, trimmed form; every stored phone number consists of
    digits only (and so is its own folded, trimmed form too); every stored
    handle is case-folded, ends in no whitespace and begins with no [@].
    Whether a stored handle begins with whitespace is left open here. *)
Theorem stored_values_normalized (calls : list method) :
  all_secrets normalized (run re_compiles re_raises re_search calls new_detector).
Proof.
  unfold run. generalize (all_secrets_new normalized).
  generalize new_detector as self.
  induction calls as [|meth calls IH]; intros self Inv; simpl; [ exact Inv | ].
  apply IH, call_keeps_normalized, Inv.
Qed.

(** C7.  [add_custom_pattern] on a pattern that [re.compile] rejects with
    [re.error] returns normally and leaves the detector, hence every count,
    as it was.  On a pattern that [re.compile] rejects with another
    exception the call raises that exception: the [except re.error] does
    not catch it.  On a pattern that compiles it registers the pattern
    compiled with [re.IGNORECASE], touching no creator set, and every text
    that this pattern matches is reported from then on. *)
Theorem add_custom_pattern_cases (pattern : string) (self : PIIDetector) :
  (re_compiles pattern = false -> re_raises pattern = re_error ->
     call re_compiles re_raises re_search (AddCustomPattern pattern) self
     = (Returned VNone, self)
     /\ get_stats (run re_compiles re_raises re_search [AddCustomPattern pattern] self)
        = get_stats self)
  /\ (re_compiles pattern = false -> re_raises pattern <> re_error ->
     call re_compiles re_raises re_search (AddCustomPattern pattern) self
     = (Raised (re_raises pattern), self))
  /\ (re_compiles pattern = true ->
     exists self',
       call re_compiles re_raises re_search (AddCustomPattern pattern) self
       = (Returned VNone, self')
       /\ _custom_patterns self' = {[ pattern ]} ∪ _custom_patterns self
       /\ (forall c, secrets c self' = secrets c self)
       /\ (forall text, re_search pattern text = true ->
             contains_pii re_search self' text = true)).
Proof.
  split; [ | split ].
  - intros H Hr.
    unfold run, fold_left, call, add_custom_pattern, re_compile. rewrite H, Hr.
    split; reflexivity.
  - intros H Hr. unfold call, add_custom_pattern, re_compile. rewrite H.
    destruct (re_raises pattern); [ contradiction | | | ]; reflexivity.
  - intros H. unfold call, add_custom_pattern, re_compile. rewrite H. cbv iota.
    eexists. split; [ reflexivity | ]. simpl.
    split; [ reflexivity | ].
    split; [ intros c; destruct c; reflexivity | ].
    intros text Hm. apply contains_pii_custom, check_custom_patterns_true.
    exists pattern. split; [ simpl | exact Hm ].
    apply elem_of_union_l, elem_of_singleton. reflexivity.
Qed.

(** C6 (as amended).  Each [add*] call made a second time with the same
    argument leaves the detector as the first call left it.  Made twice on
    a detector whose corresponding count is zero, it leaves that count at 1
    when the call registers its value: always for the eight creator
    categories, and for [add_custom_pattern] when the pattern compiles (a
    pattern that does not compile leaves the count at 0). *)
Theorem add_twice_is_add_once (meth : method) (key : string) (self : PIIDetector) :
  stats_key meth = Some key ->
  run re_compiles re_raises re_search [meth; meth] self = run re_compiles re_raises re_search [meth] self
  /\ (count key self = Some 0 ->
      count key (run re_compiles re_raises re_search [meth; meth] self)
      = Some (if registers re_compiles meth then 1 else 0)).
Proof.
  intros Hkey. unfold run.
  destruct meth; simpl in Hkey; try discriminate Hkey;
    injection Hkey as <-; simpl;
    try (unfold add_custom_pattern, re_compile;
         destruct (re_compiles pattern) eqn:Hc;
         [ | destruct (re_raises pattern) eqn:Hr ]; simpl;
         unfold add_custom_pattern, re_compile; rewrite ?Hc, ?Hr; simpl);
    (split;
     [ unfold add_creator_name, add_creator_handle, add_creator_location,
         add_creator_employer, add_creator_family, add_creator_phone,
         add_creator_email, add_creator_address; simpl;
       rewrite ?add_again; reflexivity
     | unfold count; simpl; intros H; injection H as H;
       rewrite ?(size_zero_add _ _ H), ?H; reflexivity ]).
Qed.

Lemma empty_secret_found (self : PIIDetector) (c : category) (text : string) :
  "" ∈ secrets c self -> contains_pii re_search self text = true.
Proof.
  intros H. apply contains_pii_creator, check_creator_pii_true.
  exists c, "". split; [ exact H | apply contains_empty ].
Qed.

(** C3 (as amended).  A detector in which the empty string is registered
    as a creator secret, in whichever category, reports every text, the
    empty text included.  The detector that the command line builds when
    there is no creator configuration, or one without a ["name"] key, is
    such a detector: the empty string is registered as a name.  A handle,
    location or employer that is missing from the configuration, or empty
    in it, is skipped: the set of its category stays empty. *)
Theorem empty_secret_reports_everything
    (self : PIIDetector) (c : category) (cfg : config) (text : string) :
  ("" ∈ secrets c self -> contains_pii re_search self text = true)
  /\ (no_name_key cfg ->
      "" ∈ _creator_names (_create_detector cfg)
      /\ contains_pii re_search (_create_detector cfg) text = true)
  /\ (forall key c',
        In (key, c') config_keys -> c' <> Name -> config_value cfg key = "" ->
        secrets c' (_create_detector cfg) = ∅).
Proof.
  split; [ | split ].
  - apply empty_secret_found.
  - intros H. pose proof (empty_name_registered cfg H) as Hin.
    split; [ exact Hin | ]. apply (empty_secret_found _ Name), Hin.
  - intros key c'. apply empty_value_skipped.
Qed.

End Mutation.

(* ================================================================== *)
(** ** Sanitization and the policy layer at concrete inputs *)
(* ================================================================== *)

Section Policy.

Variable re_search : string -> string -> bool.

(** C1.  With the name ["Jane Doe"] registered (stored as ["jane doe"]),
    the text ["Hi, I'm Jane Doe"] is reported, and the sanitized text that
    [check_and_sanitize] returns is the input itself: the name is still in
    it, because [replace] looks for the stored lower-case form in the text
    as written. *)
Theorem sanitize_misses_other_casing :
  let detector := add_creator_name "Jane Doe" new_detector in
  "jane doe" ∈ _creator_names detector
  /\ _check_creator_pii detector "Hi, I'm Jane Doe" = true
  /\ check_and_sanitize re_search detector "Hi, I'm Jane Doe" "[REDACTED]"
     = (true, "Hi, I'm Jane Doe")
  /\ Py.contains "Jane Doe" "Hi, I'm Jane Doe" = true.
Proof.
  simpl. split; [ apply elem_of_union_l, elem_of_singleton; reflexivity | ].
  split; [ reflexivity | ]. split; reflexivity.
Qed.

(** Where the stored form itself is in the text, it is replaced. *)
Example sanitize_replaces_stored_casing :
  check_and_sanitize re_search (add_creator_name "Jane Doe" new_detector)
    "Hi, I'm jane doe at a@b.co" "[REDACTED]"
  = (true, "Hi, I'm [REDACTED] at [REDACTED]").
Proof. reflexivity. Qed.

(** C4.  With the creator ["Jane Doe"] configured and protection on, a
    comment whose text holds an e-mail address is refused by the
    [post comment] handler without a call on the transport client, and the
    dictionary it answers with has the keys [success], [error] and
    [details] only: there is no [suggestion].  The same text as the content
    of a post is refused by [safe_post_create] with all four keys. *)
Theorem comment_refusal_has_no_suggestion :
  let cli := new_cli (Some {[ "name" := "Jane Doe" ]}) in
  (post_comment re_search "post-1" "mail me at a@b.co" None cli).1
  = Local [ ("success", JBool false);
            ("error", JStr "PII Protection Blocked");
            ("details", JStr "PII detected in comment - post blocked") ]
  /\ getitem "suggestion"
       [ ("success", JBool false);
         ("error", JStr "PII Protection Blocked");
         ("details", JStr "PII detected in comment - post blocked") ] = None
  /\ (safe_post_create re_search "general" "Hello" "mail me at a@b.co" None cli).1
     = Local [ ("success", JBool false);
               ("error", JStr "PII Protection Blocked");
               ("details", JStr "PII detected in content - post blocked");
               ("suggestion",
                JStr "Remove personal information from content and try again") ].
Proof. split; [ reflexivity | ]. split; reflexivity. Qed.

(** What [check_content] answers on a non-empty text that the detector
    reports, protection being on. *)
Lemma check_content_blocked (content field : string) (self : SafeMoltbookCLI) :
  pii_protection_enabled self = true ->
  content <> "" ->
  contains_pii re_search (pii_detector self) content = true ->
  exists sanitized self',
    check_content re_search content field self
    = ((false, "PII detected in " +:+ field +:+ " - post blocked", Some sanitized), self')
    /\ pii_detector self' = pii_detector self
    /\ pii_protection_enabled self' = true.
Proof.
  intros Hon Hne Hpii. unfold check_content, check_and_sanitize.
  rewrite Hon, Hpii. simpl.
  destruct (String.eqb_spec content ""); [ contradiction | ].
  eexists _, _. split; [ reflexivity | ]. split; reflexivity.
Qed.

(** A post whose title, or whose content, is reported is refused with the
    four-key dictionary that names the field, and nothing is handed to the
    transport client. *)
Lemma safe_post_create_blocked (submolt title content : string) (url : option string)
    (self : SafeMoltbookCLI) :
  pii_protection_enabled self = true ->
  (title <> "" /\ contains_pii re_search (pii_detector self) title = true)
  \/ (content <> "" /\ contains_pii re_search (pii_detector self) content = true) ->
  exists field,
    (field = "title" \/ field = "content")
    /\ (safe_post_create re_search submolt title content url self).1
       = Local [ ("success", JBool false);
                 ("error", JStr "PII Protection Blocked");
                 ("details", JStr ("PII detected in " +:+ field +:+ " - post blocked"));
                 ("suggestion",
                  JStr ("Remove personal information from " +:+ field +:+ " and try again")) ].
Proof.
  intros Hon Hcase. unfold safe_post_create.
  destruct (check_content re_search title "title" self)
    as [[[title_safe title_msg] s1] self1] eqn:E1.
  destruct title_safe; simpl.
  - assert (Hc : content <> "" /\ contains_pii re_search (pii_detector self) content = true).
    { destruct Hcase as [[Hne Hpii] | Hc]; [ | exact Hc ].
      destruct (check_content_blocked title "title" self Hon Hne Hpii)
        as (x & y & Hcc & _). rewrite Hcc in E1. discriminate E1. }
    destruct Hc as [Hne Hpii].
    assert (Hsame : pii_detector self1 = pii_detector self
                    /\ pii_protection_enabled self1 = true).
    { revert E1. unfold check_content. rewrite Hon. simpl.
      destruct (String.eqb title "").
      - intros E. inversion E. subst. split; [ reflexivity | exact Hon ].
      - destruct (check_and_sanitize _ _ _ _) as [[] ?];
          intros E; inversion E; subst; split; solve [ reflexivity | exact Hon ]. }
    destruct Hsame as [Hd Hon1]. rewrite <- Hd in Hpii.
    destruct (check_content_blocked content "content" self1 Hon1 Hne Hpii)
      as (x & y & Hcc & _).
    rewrite Hcc. simpl. exists "content". split; [ right | ]; reflexivity.
  - exists "title". split; [ left; reflexivity | ].
    revert E1. unfold check_content. rewrite Hon. simpl.
    destruct (String.eqb title ""); [ discriminate | ].
    destruct (check_and_sanitize _ _ _ _) as [[] ?]; [ | discriminate ].
    intros E. inversion E. reflexivity.
Qed.

(** A comment that is reported is refused with the three-key dictionary. *)
Lemma post_comment_blocked (post_id content : string) (parent : option string)
    (cli : SafeMoltbookCLI) :
  pii_protection_enabled cli = true ->
  content <> "" ->
  contains_pii re_search (pii_detector cli) content = true ->
  (post_comment re_search post_id content parent cli).1
  = Local [ ("success", JBool false);
            ("error", JStr "PII Protection Blocked");
            ("details", JStr "PII detected in comment - post blocked") ].
Proof.
  intros Hon Hne Hpii. unfold post_comment.
  destruct (check_content_blocked content "comment" cli Hon Hne Hpii)
    as (x & y & Hcc & _).
  rewrite Hcc. reflexivity.
Qed.

End Policy.

(* ================================================================== *)
(** ** Closed instances *)
(* ================================================================== *)

(** The detector built without a creator configuration registers the empty
    string as a name; it does not register it as a handle, nor as a
    location, nor as an employer: the empty strings passed for these are
    skipped. *)
Lemma default_detector_registers_name_only :
  "" ∈ _creator_names (_create_detector None)
  /\ ~ ("" ∈ _creator_handles (_create_detector None))
  /\ ~ ("" ∈ _creator_locations (_create_detector None))
  /\ ~ ("" ∈ _creator_employers (_create_detector None)).
Proof.
  split; [ apply elem_of_union_l, elem_of_singleton; reflexivity | ].
  repeat split; apply (not_elem_of_empty (C:=gset string)).
Qed.

Lemma empty_secret_reports_everything_witness :
  "" ∈ secrets Name (add_creator_name "" new_detector)
  /\ contains_pii Plain.search (add_creator_name "" new_detector)
       "This post is about automation" = true
  /\ no_name_key None
  /\ contains_pii Plain.search (_create_detector None) "" = true
  /\ config_value (Some {[ "name" := "Jane Doe" ]}) "handle" = ""
  /\ secrets Handle (_create_detector (Some {[ "name" := "Jane Doe" ]})) = ∅.
Proof.
  assert (Hin : "" ∈ secrets Name (add_creator_name "" new_detector)).
  { simpl. apply elem_of_union_l, elem_of_singleton. reflexivity. }
  destruct (empty_secret_reports_everything Plain.search
              (add_creator_name "" new_detector) Name None
              "This post is about automation") as (H1 & _ & _).
  destruct (empty_secret_reports_everything Plain.search
              (add_creator_name "" new_detector) Name None "") as (_ & H2 & _).
  destruct (empty_secret_reports_everything Plain.search
              new_detector Name (Some {[ "name" := "Jane Doe" ]}) "")
    as (_ & _ & H3).
  split; [ exact Hin | ]. split; [ exact (H1 Hin) | ].
  split; [ exact I | ]. split; [ exact (proj2 (H2 I)) | ].
  split; [ reflexivity | ].
  apply (H3 "handle" Handle); [ right; left; reflexivity | discriminate | reflexivity ].
Defined.

Lemma check_and_sanitize_clean_witness :
  contains_pii Plain.search (add_creator_name "Jane Doe" new_detector)
    "Hi, I'm someone else" = false
  /\ check_and_sanitize Plain.search (add_creator_name "Jane Doe" new_detector)
       "Hi, I'm someone else" "[REDACTED]" = (false, "Hi, I'm someone else").
Proof.
  split; [ reflexivity | ].
  apply (check_and_sanitize_clean Plain.compiles Plain.raises Plain.search
           (add_creator_name "Jane Doe" new_detector)
           "Hi, I'm someone else" "[REDACTED]").
  reflexivity.
Defined.

(** A pattern with an unclosed group does not compile; added twice to a
    fresh detector it leaves the count of custom patterns at 0. *)
Lemma malformed_pattern_count_stays_zero :
  stats_key (AddCustomPattern "(") = Some "custom_patterns_count"
  /\ Plain.compiles "(" = false
  /\ count "custom_patterns_count" new_detector = Some 0
  /\ count "custom_patterns_count"
       (run Plain.compiles Plain.raises Plain.search
          [AddCustomPattern "("; AddCustomPattern "("] new_detector) = Some 0
  /\ count "custom_patterns_count"
       (run Plain.compiles Plain.raises Plain.search
          [AddCustomPattern "("; AddCustomPattern "("] new_detector) <> Some 1.
Proof.
  split; [ reflexivity | ]. split; [ reflexivity | ]. split; [ reflexivity | ].
  split; [ reflexivity | ]. vm_compute. discriminate.
Qed.

Lemma add_twice_is_add_once_witness :
  stats_key (AddCreatorName "Jane Doe") = Some "creator_names_count"
  /\ run Plain.compiles Plain.raises Plain.search
       [AddCreatorName "Jane Doe"; AddCreatorName "Jane Doe"] new_detector
     = run Plain.compiles Plain.raises Plain.search [AddCreatorName "Jane Doe"] new_detector
  /\ count "creator_names_count"
       (run Plain.compiles Plain.raises Plain.search
          [AddCreatorName "Jane Doe"; AddCreatorName "Jane Doe"] new_detector) = Some 1.
Proof.
  destruct (add_twice_is_add_once Plain.compiles Plain.raises Plain.search
              (AddCreatorName "Jane Doe") "creator_names_count" new_detector eq_refl)
    as [H1 H2].
  split; [ reflexivity | ]. split; [ exact H1 | exact (H2 eq_refl) ].
Defined.

Lemma add_custom_pattern_cases_witness :
  Plain.compiles "(" = false
  /\ call Plain.compiles Plain.raises Plain.search (AddCustomPattern "(") new_detector
     = (Returned VNone, new_detector)
  /\ Counted.compiles Counted.too_large = false
  /\ call Counted.compiles Counted.raises Counted.search
       (AddCustomPattern Counted.too_large) new_detector
     = (Raised OverflowError, new_detector)
  /\ Plain.compiles "(secret)" = true
  /\ contains_pii Plain.search
       (call Plain.compiles Plain.raises Plain.search
          (AddCustomPattern "(secret)") new_detector).2
       "my SECRET plan" = true.
Proof.
  destruct (add_custom_pattern_cases Plain.compiles Plain.raises Plain.search
              "(" new_detector) as (H1 & _ & _).
  destruct (add_custom_pattern_cases Counted.compiles Counted.raises Counted.search
              Counted.too_large new_detector) as (_ & H2 & _).
  destruct (add_custom_pattern_cases Plain.compiles Plain.raises Plain.search
              "(secret)" new_detector) as (_ & _ & H3).
  split; [ reflexivity | ]. split; [ exact (proj1 (H1 eq_refl eq_refl)) | ].
  split; [ reflexivity | ].
  split; [ apply (H2 eq_refl); discriminate | ].
  split; [ reflexivity | ].
  destruct (H3 eq_refl) as (self' & Hcall & _ & _ & Hfound).
  rewrite Hcall. apply Hfound. reflexivity.
Defined.

(** C9.  [add_creator_handle] on ["@ bob"] stores [" bob"]: the whitespace
    is trimmed before the [@] is taken off, so the blank that followed the
    [@] stays in front.  The stored handle is not its own trimmed form, and
    the detector breaks the invariant that every stored value is
    normalized.  The sibling [add_creator_name] stores ["bob"] for
    [" bob"]. *)
Theorem handle_with_blank_after_at :
  " bob" ∈ _creator_handles
             (run Plain.compiles Plain.raises Plain.search [AddCreatorHandle "@ bob"] new_detector)
  /\ Py.strip (Py.lower " bob") = "bob"
  /\ "bob" ∈ _creator_names
               (run Plain.compiles Plain.raises Plain.search [AddCreatorName " bob"] new_detector)
  /\ ~ all_secrets normalized_as_stated
         (run Plain.compiles Plain.raises Plain.search [AddCreatorHandle "@ bob"] new_detector).
Proof.
  assert (Hin : " bob" ∈ _creator_handles
             (run Plain.compiles Plain.raises Plain.search [AddCreatorHandle "@ bob"] new_detector)).
  { simpl. apply elem_of_union_l, elem_of_singleton. reflexivity. }
  split; [ exact Hin | ]. split; [ reflexivity | ].
  split; [ simpl; apply elem_of_union_l, elem_of_singleton; reflexivity | ].
  intros H. specialize (H Handle " bob" Hin). vm_compute in H. discriminate H.
Qed.

(* ================================================================== *)
(** ** The matcher against the language of a pattern *)
(* ================================================================== *)

Lemma app_cons (a : ascii) (s t : string) : String a s +:+ t = String a (s +:+ t).
Proof. reflexivity. Qed.

Lemma app_nil_r (s : string) : s +:+ "" = s.
Proof.
  induction s as [|a s IH]; [ reflexivity | ]. rewrite app_cons, IH. reflexivity.
Qed.

Lemma app_nil_l (s : string) : "" +:+ s = s.
Proof. reflexivity. Qed.

Lemma app_assoc (s t u : string) : (s +:+ t) +:+ u = s +:+ (t +:+ u).
Proof.
  induction s as [|a s IH]; [ reflexivity | ]. rewrite !app_cons, IH. reflexivity.
Qed.

Lemma length_app (s t : string) :
  String.length (s +:+ t) = String.length s + String.length t.
Proof.
  induction s as [|a s IH]; [ reflexivity | ]. rewrite app_cons. simpl. rewrite IH.
  reflexivity.
Qed.

Lemma within_zero (hi : option nat) : within 0 hi = true.
Proof. destruct hi; reflexivity. Qed.

Lemma within_step (n : nat) (hi : option nat) :
  Re.may_repeat hi = true ->
  within (S n) hi = within n (Re.one_less hi).
Proof.
  destruct hi as [[|h]|]; simpl; try discriminate; intros _; [ | reflexivity ].
  destruct (Nat.leb_spec n h), (Nat.leb_spec (S n) (S h)); try reflexivity; lia.
Qed.

(** The greedy repetition succeeds exactly when some admissible number of
    leading characters of the class can be taken so that the continuation
    succeeds on the rest. *)
Lemma rep_is_some (c : ascii -> bool) (s : string) :
  forall (lo : nat) (hi : option nat) (k : string -> option string),
    is_Some (Re.rep c lo hi s k) <->
    exists s1 s2,
      s = s1 +:+ s2 /\ all_in c s1 = true /\ lo <= String.length s1
      /\ within (String.length s1) hi = true /\ is_Some (k s2).
Proof.
  induction s as [|a s IH]; intros lo hi k.
  - simpl. split.
    + destruct (Nat.eqb_spec lo 0) as [-> | Hlo]; [ | intros [x Hx]; discriminate Hx ].
      intros Hk. exists "", "". rewrite within_zero. repeat split; auto.
    + intros (s1 & s2 & Hs & _ & Hlo & _ & Hk).
      destruct s1; [ | discriminate Hs ]. rewrite app_nil_l in Hs. subst s2.
      simpl in Hlo. replace lo with 0 by lia. exact Hk.
  - assert (Hstop : is_Some (if lo =? 0 then k (String a s) else None) <->
                    lo = 0 /\ is_Some (k (String a s))).
    { destruct (Nat.eqb_spec lo 0) as [-> | Hlo]; split.
      - auto.
      - intros [_ H]; exact H.
      - intros [x Hx]; discriminate Hx.
      - intros [H _]; contradiction. }
    simpl. destruct (c a && Re.may_repeat hi) eqn:Hca.
    + apply andb_true_iff in Hca as [Hc Hmay].
      specialize (IH (pred lo) (Re.one_less hi) k).
      split.
      * destruct (Re.rep c (pred lo) (Re.one_less hi) s k) as [x|] eqn:Hrec.
        -- intros _. destruct (proj1 IH (ex_intro _ x eq_refl))
             as (s1 & s2 & Hs & Hall & Hlo & Hw & Hk).
           exists (String a s1), s2. rewrite app_cons, <- Hs. simpl.
           rewrite Hc, Hall, (within_step _ _ Hmay), Hw.
           repeat split; auto. lia.
        -- intros H. apply Hstop in H as [-> Hk].
           exists "", (String a s). rewrite within_zero. repeat split; auto.
      * intros (s1 & s2 & Hs & Hall & Hlo & Hw & Hk).
        destruct s1 as [|b s1].
        -- rewrite app_nil_l in Hs. subst s2. simpl in Hlo.
           assert (Hsome : is_Some (if lo =? 0 then k (String a s) else None)).
           { apply Hstop. split; [ lia | exact Hk ]. }
           destruct (Re.rep c (pred lo) (Re.one_less hi) s k); [ eauto | exact Hsome ].
        -- rewrite app_cons in Hs. injection Hs as <- Hs. simpl in Hall, Hlo, Hw.
           apply andb_true_iff in Hall as [_ Hall].
           rewrite (within_step _ _ Hmay) in Hw.
           assert (Hsome : is_Some (Re.rep c (pred lo) (Re.one_less hi) s k)).
           { apply IH. exists s1, s2. repeat split; auto. lia. }
           destruct Hsome as [x ->]. eauto.
    + rewrite Hstop. split.
      * intros [-> Hk]. exists "", (String a s). rewrite within_zero.
        repeat split; auto.
      * intros (s1 & s2 & Hs & Hall & Hlo & Hw & Hk).
        destruct s1 as [|b s1].
        -- rewrite app_nil_l in Hs. subst s2. simpl in Hlo. split; [ lia | exact Hk ].
        -- exfalso. rewrite app_cons in Hs. injection Hs as <- Hs.
           simpl in Hall, Hw. apply andb_true_iff in Hall as [Hc _].
           rewrite Hc in Hca. simpl in Hca.
           destruct hi as [[|h]|]; simpl in Hca, Hw; discriminate.
Qed.

(** The matcher succeeds exactly when the text splits into a member of
    the language of the pattern and a rest on which the continuation
    succeeds. *)
Lemma m_is_some (r : Re.regex) :
  forall (s : string) (k : string -> option string),
    is_Some (Re.m r s k) <->
    exists s1 s2, s = s1 +:+ s2 /\ lang r s1 /\ is_Some (k s2).
Proof.
  induction r as [c | r1 IH1 r2 IH2 | r IH | c lo hi]; intros s k.
  - simpl. split.
    + destruct s as [|a s]; [ intros [x Hx]; discriminate Hx | ].
      destruct (c a) eqn:Hc; [ | intros [x Hx]; discriminate Hx ].
      intros Hk. exists (String a ""), s. repeat split; auto. constructor. exact Hc.
    + intros (s1 & s2 & Hs & Hl & Hk). inversion Hl; subst.
      rewrite app_cons, app_nil_l.
      match goal with H : c _ = true |- _ => rewrite H end. exact Hk.
  - simpl. rewrite IH1. split.
    + intros (s1 & s2 & Hs & Hl1 & Hk). apply IH2 in Hk as (t1 & t2 & Ht & Hl2 & Hk).
      exists (s1 +:+ t1), t2. rewrite app_assoc, <- Ht. repeat split; auto.
      constructor; assumption.
    + intros (s1 & s2 & Hs & Hl & Hk). inversion Hl; subst.
      eexists _, _. split; [ apply app_assoc | ]. split; [ eassumption | ].
      apply IH2. eauto.
  - simpl. split.
    + destruct (Re.m r s k) as [x|] eqn:Hm.
      * intros _. destruct (proj1 (IH s k) (ex_intro _ x Hm)) as (s1 & s2 & Hs & Hl & Hk).
        exists s1, s2. repeat split; auto. apply lang_opt_take, Hl.
      * intros Hk. exists "", s. repeat split; auto. constructor.
    + intros (s1 & s2 & Hs & Hl & Hk). inversion Hl; subst.
      * rewrite app_nil_l in *. destruct (Re.m r s2 k); [ eauto | exact Hk ].
      * assert (Hsome : is_Some (Re.m r (s1 +:+ s2) k)) by (apply IH; eauto).
        destruct Hsome as [x ->]. eauto.
  - simpl. rewrite rep_is_some. split.
    + intros (s1 & s2 & Hs & Hall & Hlo & Hw & Hk). exists s1, s2.
      repeat split; auto. constructor; assumption.
    + intros (s1 & s2 & Hs & Hl & Hk). inversion Hl; subst. exists s1, s2.
      repeat split; auto.
Qed.

Lemma match_at_is_some (r : Re.regex) (s : string) :
  is_Some (Re.match_at r s) <-> exists s1 s2, s = s1 +:+ s2 /\ lang r s1.
Proof.
  unfold Re.match_at. rewrite m_is_some. split.
  - intros (s1 & s2 & Hs & Hl & _). eauto.
  - intros (s1 & s2 & Hs & Hl). exists s1, s2. repeat split; eauto.
Qed.

Lemma search_true (r : Re.regex) (s : string) :
  Re.search r s = true <-> exists mid, lang r mid /\ occurs_in mid s.
Proof.
  induction s as [|a s IH].
  - simpl. destruct (Re.match_at r "") as [x|] eqn:Hm; split.
    + intros _. destruct (proj1 (match_at_is_some r "") (ex_intro _ x Hm))
        as (s1 & s2 & Hs & Hl).
      exists s1. split; [ exact Hl | ]. exists "", s2. exact Hs.
    + reflexivity.
    + discriminate.
    + intros (mid & Hl & pre & post & Hs).
      destruct pre; [ | discriminate Hs ]. rewrite app_nil_l in Hs.
      assert (Hsome : is_Some (Re.match_at r "")) by (apply match_at_is_some; eauto).
      rewrite Hm in Hsome. destruct Hsome as [y Hy]. discriminate Hy.
  - simpl. destruct (Re.match_at r (String a s)) as [x|] eqn:Hm; split.
    + intros _. destruct (proj1 (match_at_is_some r _) (ex_intro _ x Hm))
        as (s1 & s2 & Hs & Hl).
      exists s1. split; [ exact Hl | ]. exists "", s2. exact Hs.
    + reflexivity.
    + intros H. apply IH in H as (mid & Hl & pre & post & Hs).
      exists mid. split; [ exact Hl | ]. exists (String a pre), post.
      rewrite app_cons, <- Hs. reflexivity.
    + intros (mid & Hl & pre & post & Hs). destruct pre as [|b pre].
      * rewrite app_nil_l in Hs.
        assert (Hsome : is_Some (Re.match_at r (String a s)))
          by (apply match_at_is_some; eauto).
        rewrite Hm in Hsome. destruct Hsome as [y Hy]. discriminate Hy.
      * rewrite app_cons in Hs. injection Hs as _ Hs.
        apply IH. exists mid. split; [ exact Hl | ]. exists pre, post. exact Hs.
Qed.

Lemma occurs_in_context (mid t pre post : string) :
  occurs_in mid t -> occurs_in mid (pre +:+ t +:+ post).
Proof.
  intros (p & q & ->). exists (pre +:+ p), (q +:+ post).
  rewrite !app_assoc. reflexivity.
Qed.

Lemma occurs_in_self (mid pre post : string) : occurs_in mid (pre +:+ mid +:+ post).
Proof. exists pre, post. reflexivity. Qed.

Lemma startswith_true (p s : string) :
  Py.startswith p s = true <-> exists t, s = p +:+ t.
Proof.
  revert s. induction p as [|a p IH]; intros s.
  - simpl. split; [ intros _; exists s; reflexivity | reflexivity ].
  - destruct s as [|b s]; simpl.
    + split; [ discriminate | intros (t & Ht); discriminate Ht ].
    + rewrite andb_true_iff, IH. split.
      * intros [Hab (t & ->)]. apply Ascii.eqb_eq in Hab as ->. exists t. reflexivity.
      * intros (t & Ht). rewrite app_cons in Ht. injection Ht as -> ->.
        split; [ apply Ascii.eqb_refl | eauto ].
Qed.

Lemma contains_true (p s : string) : Py.contains p s = true <-> occurs_in p s.
Proof.
  induction s as [|a s IH].
  - simpl. rewrite orb_false_r, startswith_true. split.
    + intros (t & Ht). exists "", t. exact Ht.
    + intros (pre & post & Hs). destruct pre; [ | discriminate Hs ]. eauto.
  - rewrite contains_cons, orb_true_iff, startswith_true, IH. split.
    + intros [(t & Ht) | (pre & post & Hs)].
      * exists "", t. exact Ht.
      * exists (String a pre), post. rewrite app_cons, <- Hs. reflexivity.
    + intros (pre & post & Hs). destruct pre as [|b pre].
      * left. exists post. exact Hs.
      * right. rewrite app_cons in Hs. injection Hs as _ Hs. exists pre, post. exact Hs.
Qed.

Lemma digits_only_app (s t : string) :
  Py.digits_only (s +:+ t) = Py.digits_only s +:+ Py.digits_only t.
Proof.
  induction s as [|a s IH]; [ reflexivity | ].
  rewrite app_cons. simpl. rewrite IH. destruct (Py.is_digit a); reflexivity.
Qed.

Lemma some_in_app (c : ascii -> bool) (s t : string) :
  some_in c (s +:+ t) = some_in c s || some_in c t.
Proof.
  induction s as [|a s IH]; [ reflexivity | ].
  rewrite app_cons. simpl. rewrite IH. apply orb_assoc.
Qed.

Lemma all_in_app (c : ascii -> bool) (s t : string) :
  all_in c (s +:+ t) = all_in c s && all_in c t.
Proof.
  induction s as [|a s IH]; [ reflexivity | ].
  rewrite app_cons. simpl. rewrite IH. apply andb_assoc.
Qed.

Lemma all_in_not_some_in (c : ascii -> bool) (s : string) :
  all_in (fun a => negb (c a)) s = negb (some_in c s).
Proof.
  induction s as [|a s IH]; [ reflexivity | ]. simpl. rewrite IH.
  destruct (c a); reflexivity.
Qed.

Lemma class_within_spec (c c' : ascii -> bool) (a : ascii) :
  class_within c c' = true -> c a = true -> c' a = true.
Proof.
  unfold class_within. rewrite forallb_forall. intros H Hc.
  specialize (H (nat_of_ascii a)). rewrite ascii_nat_embedding, Hc in H.
  apply H, in_seq. pose proof (nat_ascii_bounded a). lia.
Qed.

Lemma lang_needs (c' : ascii -> bool) (r : Re.regex) (s : string) :
  lang r s -> needs c' r = true -> some_in c' s = true.
Proof.
  induction 1 as [c a Hc | r1 r2 s1 s2 _ IH1 _ IH2 | r | r s _ IH | c lo hi s Hall Hlo Hw];
    simpl; intros Hn; try discriminate Hn.
  - rewrite (class_within_spec c c' a Hn Hc). reflexivity.
  - rewrite some_in_app. apply orb_true_iff in Hn as [Hn | Hn];
      [ rewrite (IH1 Hn) | rewrite (IH2 Hn), orb_true_r ]; reflexivity.
  - apply andb_true_iff in Hn as [Hpos Hn]. apply Nat.ltb_lt in Hpos.
    destruct s as [|a s]; [ simpl in Hlo; lia | ].
    simpl in Hall. apply andb_true_iff in Hall as [Hc _]. simpl.
    rewrite (class_within_spec c c' a Hn Hc). reflexivity.
Qed.

Lemma table_needs_digit_or_at (name : string) (r : Re.regex) :
  In (name, r) PII_PATTERNS -> needs digit_or_at r = true.
Proof.
  assert (H : forallb (fun entry => needs digit_or_at entry.2) PII_PATTERNS = true)
    by (vm_compute; reflexivity).
  rewrite forallb_forall in H. intros Hin. exact (H _ Hin).
Qed.

Lemma check_patterns_silent (text : string) :
  some_in digit_or_at text = false -> _check_patterns text = false.
Proof.
  intros Hno. destruct (_check_patterns text) eqn:E; [ | reflexivity ].
  apply check_patterns_true in E as (name & r & Hin & Hs).
  apply search_true in Hs as (mid & Hl & pre & post & ->).
  pose proof (lang_needs digit_or_at r mid Hl (table_needs_digit_or_at name r Hin)) as Hm.
  rewrite !some_in_app, Hm, orb_true_r in Hno. discriminate Hno.
Qed.

(** A text that has a member of the language of a table pattern in it is
    reported by the table. *)
Lemma check_patterns_hit (name : string) (r : Re.regex) (mid text : string) :
  In (name, r) PII_PATTERNS -> lang r mid -> occurs_in mid text ->
  _check_patterns text = true.
Proof.
  intros Hin Hl Ho. apply check_patterns_true. exists name, r.
  split; [ exact Hin | ]. apply search_true. eauto.
Qed.

Lemma contains_pii_table (re_search : string -> string -> bool)
    (self : PIIDetector) (text : string) :
  _check_patterns text = true -> contains_pii re_search self text = true.
Proof. intros H. unfold contains_pii. rewrite H. reflexivity. Qed.

Lemma check_creator_pii_context (self : PIIDetector) (t pre post : string) :
  Py.lower (pre +:+ t +:+ post) = Py.lower pre +:+ Py.lower t +:+ Py.lower post ->
  _check_creator_pii self t = true ->
  _check_creator_pii self (pre +:+ t +:+ post) = true.
Proof.
  intros Hlow. rewrite !check_creator_pii_true. intros (c & secret & Hin & Hc).
  exists c, secret. split; [ exact Hin | ].
  assert (Hparts : normalized_text c (pre +:+ t +:+ post)
                   = normalized_text c pre +:+ normalized_text c t
                     +:+ normalized_text c post).
  { destruct c; try exact Hlow. simpl. rewrite !digits_only_app. reflexivity. }
  rewrite Hparts. apply contains_true, occurs_in_context, contains_true, Hc.
Qed.

Lemma check_patterns_context (t pre post : string) :
  _check_patterns t = true -> _check_patterns (pre +:+ t +:+ post) = true.
Proof.
  intros H. apply check_patterns_true in H as (name & r & Hin & Hs).
  apply search_true in Hs as (mid & Hl & Ho).
  apply (check_patterns_hit name r mid); auto. apply occurs_in_context, Ho.
Qed.

Lemma lang_digit_run (lo hi : nat) (s : string) :
  digit_run lo hi s = true -> lang (Re.Rep Patterns.d lo (Some hi)) s.
Proof.
  unfold digit_run. intros [[Hall Hlo]%andb_true_iff Hhi]%andb_true_iff.
  constructor; [ exact Hall | apply Nat.leb_le, Hlo | exact Hhi ].
Qed.

Lemma lang_exactly (n : nat) (s : string) :
  digit_run n n s = true -> lang (Re.exactly Patterns.d n) s.
Proof. apply lang_digit_run. Qed.

Lemma lang_opt_char (c : ascii -> bool) (s : string) :
  opt_char c s = true -> lang (Re.Opt (Re.Cls c)) s.
Proof.
  destruct s as [|a [|b s]]; simpl; intros H; try discriminate H.
  - apply lang_opt_skip.
  - apply lang_opt_take, lang_cls, H.
Qed.

Lemma lang_one_char (c : ascii -> bool) (s : string) :
  one_char c s = true -> lang (Re.Cls c) s.
Proof.
  destruct s as [|a [|b s]]; simpl; intros H; try discriminate H.
  apply lang_cls, H.
Qed.

Lemma lang_literal (a : ascii) : lang (Re.Cls (Re.chr a)) (String a EmptyString).
Proof. apply lang_cls. unfold Re.chr. apply Ascii.eqb_refl. Qed.

Lemma lang_at_least (c : ascii -> bool) (lo : nat) (s : string) :
  all_in c s = true -> lo <= String.length s -> lang (Re.Rep c lo None) s.
Proof. intros Hall Hlo. constructor; auto. Qed.

Lemma nonempty_length (s : string) : s <> "" -> 1 <= String.length s.
Proof. destruct s; [ contradiction | simpl; lia ]. Qed.

Section StaticTable.

Variable re_search : string -> string -> bool.

(** X1.  The static table reports a text exactly when some part of the
    text belongs to the language of one of its six patterns: the greedy,
    backtracking search neither invents a match nor misses one. *)
Theorem table_reports_language_members (text : string) :
  _check_patterns text = true <->
  exists name pattern mid,
    In (name, pattern) PII_PATTERNS /\ lang pattern mid /\ occurs_in mid text.
Proof.
  rewrite check_patterns_true. split.
  - intros (name & r & Hin & Hs). apply search_true in Hs as (mid & Hl & Ho).
    exists name, r, mid. auto.
  - intros (name & r & mid & Hin & Hl & Ho). exists name, r.
    split; [ exact Hin | ]. apply search_true. eauto.
Qed.

(** X2.  A text that the static table or the creator check reports stays
    reported when any text is put before it and after it, provided the
    whole lower-cases part by part ([str.lower] does so on every text over
    the code points 0..255; elsewhere it can depend on the neighbouring
    characters). *)
Theorem surrounding_text_hides_nothing (self : PIIDetector) (t pre post : string) :
  Py.lower (pre +:+ t +:+ post) = Py.lower pre +:+ Py.lower t +:+ Py.lower post ->
  _check_patterns t = true \/ _check_creator_pii self t = true ->
  contains_pii re_search self (pre +:+ t +:+ post) = true.
Proof.
  intros Hlow [H | H].
  - apply contains_pii_table, check_patterns_context, H.
  - apply contains_pii_creator, check_creator_pii_context; assumption.
Qed.

(** X3.  A text with no digit and no [@] matches no pattern of the static
    table.  Such a text is reported only through a creator secret or a
    custom pattern, and a detector that has neither does not report it. *)
Theorem table_needs_digit_or_at_sign (text : string) :
  some_in digit_or_at text = false ->
  _check_patterns text = false
  /\ (forall self,
        contains_pii re_search self text
        = _check_creator_pii self text || _check_custom_patterns re_search self text)
  /\ contains_pii re_search new_detector text = false.
Proof.
  intros Hno. pose proof (check_patterns_silent text Hno) as Hp.
  split; [ exact Hp | ]. split.
  - intros self. unfold contains_pii. rewrite Hp.
    destruct (_check_creator_pii self text), (_check_custom_patterns re_search self text);
      reflexivity.
  - unfold contains_pii, _check_creator_pii, _check_custom_patterns. rewrite Hp. simpl.
    rewrite !any_in_empty. reflexivity.
Qed.

(** X4.  Any text that holds [local@domain.tld] is reported, whatever the
    detector holds: [local] a non-empty run of letters, digits and
    [._%+-], [domain] a non-empty run of letters, digits and [.-], [tld] at
    least two letters. *)
Theorem email_shape_reported (self : PIIDetector) (pre local domain tld post : string) :
  all_in (Re.union Patterns.alnum (Re.any_of "._%+-")) local = true -> local <> "" ->
  all_in (Re.union Patterns.alnum (Re.any_of ".-")) domain = true -> domain <> "" ->
  all_in Py.is_alpha_ascii tld = true -> 2 <= String.length tld ->
  contains_pii re_search self
    (pre +:+ (local +:+ "@" +:+ domain +:+ "." +:+ tld) +:+ post) = true.
Proof.
  intros Hl Hln Hd Hdn Ht Htn. apply contains_pii_table.
  apply (check_patterns_hit "email" Patterns.email
           (local +:+ "@" +:+ domain +:+ "." +:+ tld));
    [ simpl; auto | | apply occurs_in_self ].
  unfold Patterns.email, Re.plus. repeat apply lang_cat.
  - apply lang_at_least; [ exact Hl | apply nonempty_length, Hln ].
  - apply lang_literal.
  - apply lang_at_least; [ exact Hd | apply nonempty_length, Hdn ].
  - apply lang_literal.
  - apply lang_at_least; assumption.
Qed.

(** X5.  Any text that holds three digits, an optional separator (hyphen,
    dot or whitespace) and four digits is reported, whatever the detector
    holds; so is, in particular, any text with seven digits in a row. *)
Theorem seven_digits_reported (self : PIIDetector) (pre a sep b post : string) :
  digit_run 3 3 a = true -> opt_char Patterns.sep sep = true ->
  digit_run 4 4 b = true ->
  contains_pii re_search self (pre +:+ (a +:+ sep +:+ b) +:+ post) = true.
Proof.
  intros Ha Hs Hb. apply contains_pii_table.
  apply (check_patterns_hit "phone" Patterns.phone (a +:+ sep +:+ b));
    [ simpl; auto | | apply occurs_in_self ].
  change (a +:+ sep +:+ b) with ("" +:+ "" +:+ a +:+ sep +:+ b).
  unfold Patterns.phone.
  apply lang_cat; [ apply lang_opt_skip | ].
  apply lang_cat; [ apply lang_opt_skip | ].
  apply lang_cat; [ apply lang_exactly, Ha | ].
  apply lang_cat; [ apply lang_opt_char, Hs | apply lang_exactly, Hb ].
Qed.

(** X6.  Any text that holds [ddd-dd-dddd] is reported, whatever the
    detector holds. *)
Theorem ssn_shape_reported (self : PIIDetector) (pre a b c post : string) :
  digit_run 3 3 a = true -> digit_run 2 2 b = true -> digit_run 4 4 c = true ->
  contains_pii re_search self
    (pre +:+ (a +:+ "-" +:+ b +:+ "-" +:+ c) +:+ post) = true.
Proof.
  intros Ha Hb Hc. apply contains_pii_table.
  apply (check_patterns_hit "ssn" Patterns.ssn (a +:+ "-" +:+ b +:+ "-" +:+ c));
    [ simpl; auto | | apply occurs_in_self ].
  unfold Patterns.ssn. repeat apply lang_cat;
    first [ apply lang_literal | apply lang_exactly; assumption ].
Qed.

(** X7.  Any text that holds four groups of four digits, each two groups
    joined directly or by one hyphen or whitespace character, is reported,
    whatever the detector holds. *)
Theorem card_shape_reported (self : PIIDetector)
    (pre a s1 b s2 c s3 d post : string) :
  digit_run 4 4 a = true -> digit_run 4 4 b = true ->
  digit_run 4 4 c = true -> digit_run 4 4 d = true ->
  opt_char Patterns.dash_space s1 = true -> opt_char Patterns.dash_space s2 = true ->
  opt_char Patterns.dash_space s3 = true ->
  contains_pii re_search self
    (pre +:+ (a +:+ s1 +:+ b +:+ s2 +:+ c +:+ s3 +:+ d) +:+ post) = true.
Proof.
  intros Ha Hb Hc Hd H1 H2 H3. apply contains_pii_table.
  apply (check_patterns_hit "credit_card" Patterns.credit_card
           (a +:+ s1 +:+ b +:+ s2 +:+ c +:+ s3 +:+ d));
    [ simpl; auto 10 | | apply occurs_in_self ].
  unfold Patterns.credit_card. repeat apply lang_cat;
    first [ apply lang_exactly; assumption | apply lang_opt_char; assumption ].
Qed.

(** X8.  Any text that holds four groups of one to three digits joined by
    dots is reported, whatever the detector holds; the groups are not
    checked to be at most 255. *)
Theorem ip_shape_reported (self : PIIDetector) (pre a b c d post : string) :
  digit_run 1 3 a = true -> digit_run 1 3 b = true ->
  digit_run 1 3 c = true -> digit_run 1 3 d = true ->
  contains_pii re_search self
    (pre +:+ (a +:+ "." +:+ b +:+ "." +:+ c +:+ "." +:+ d) +:+ post) = true.
Proof.
  intros Ha Hb Hc Hd. apply contains_pii_table.
  apply (check_patterns_hit "ip_address" Patterns.ip_address
           (a +:+ "." +:+ b +:+ "." +:+ c +:+ "." +:+ d));
    [ simpl; auto 10 | | apply occurs_in_self ].
  unfold Patterns.ip_address. repeat apply lang_cat;
    first [ apply lang_literal | apply lang_digit_run; assumption ].
Qed.

(** X9.  Any text that holds one or two digits, a hyphen or slash, one or
    two digits, a hyphen or slash, and two to four digits is reported,
    whatever the detector holds; the two separators need not agree. *)
Theorem date_shape_reported (self : PIIDetector) (pre a s1 b s2 c post : string) :
  digit_run 1 2 a = true -> digit_run 1 2 b = true -> digit_run 2 4 c = true ->
  one_char (Re.any_of "-/") s1 = true -> one_char (Re.any_of "-/") s2 = true ->
  contains_pii re_search self
    (pre +:+ (a +:+ s1 +:+ b +:+ s2 +:+ c) +:+ post) = true.
Proof.
  intros Ha Hb Hc H1 H2. apply contains_pii_table.
  apply (check_patterns_hit "date" Patterns.date (a +:+ s1 +:+ b +:+ s2 +:+ c));
    [ simpl; auto 10 | | apply occurs_in_self ].
  unfold Patterns.date. repeat apply lang_cat;
    first [ apply lang_digit_run; assumption | apply lang_one_char; assumption ].
Qed.

End StaticTable.

(* ================================================================== *)
(** ** How the mutators change what is reported *)
(* ================================================================== *)

Lemma contains_pii_orb (re_search : string -> string -> bool)
    (self : PIIDetector) (text : string) :
  contains_pii re_search self text
  = _check_patterns text || _check_creator_pii self text
    || _check_custom_patterns re_search self text.
Proof.
  unfold contains_pii.
  destruct (_check_patterns text), (_check_creator_pii self text),
    (_check_custom_patterns re_search self text); reflexivity.
Qed.

(** A detector whose sets include those of another reports at least what
    the other reports. *)
Lemma contains_pii_mono (re_search : string -> string -> bool)
    (self self' : PIIDetector) (text : string) :
  (forall c, secrets c self ⊆ secrets c self') ->
  _custom_patterns self ⊆ _custom_patterns self' ->
  contains_pii re_search self text = true ->
  contains_pii re_search self' text = true.
Proof.
  intros Hs Hc. rewrite !contains_pii_orb, !orb_true_iff.
  rewrite !check_creator_pii_true, !check_custom_patterns_true.
  intros [[H | (c & secret & Hin & H)] | (p & Hin & H)].
  - left. left. exact H.
  - left. right. exists c, secret. split; [ apply (Hs c), Hin | exact H ].
  - right. exists p. split; [ apply Hc, Hin | exact H ].
Qed.

Lemma call_grows (re_compiles : string -> bool) (re_raises : string -> exn)
    (re_search : string -> string -> bool)
    (meth : method) (self : PIIDetector) :
  meth <> ClearAll ->
  (forall c, secrets c self ⊆ secrets c (call re_compiles re_raises re_search meth self).2)
  /\ _custom_patterns self ⊆ _custom_patterns (call re_compiles re_raises re_search meth self).2.
Proof.
  intros Hm.
  destruct meth; simpl; try congruence;
    try (unfold add_custom_pattern, re_compile;
         destruct (re_compiles pattern); [ | destruct (re_raises pattern) ]; simpl);
    try (destruct (check_and_sanitize re_search self text placeholder); simpl);
    (split; [ intros c; destruct c; simpl | ]);
    first [ reflexivity | apply union_subseteq_r ].
Qed.

Lemma size_add (x : string) (S : gset string) :
  size ({[ x ]} ∪ S) = size S \/ size ({[ x ]} ∪ S) = Datatypes.S (size S).
Proof.
  destruct (decide (x ∈ S)) as [Hin | Hout].
  - left. f_equal. apply subseteq_union_1_L, singleton_subseteq_l, Hin.
  - right. rewrite size_union by (apply disjoint_singleton_l, Hout).
    rewrite size_singleton. reflexivity.
Qed.

Lemma add_swap (x y : string) (S : gset string) :
  {[ x ]} ∪ ({[ y ]} ∪ S) = {[ y ]} ∪ ({[ x ]} ∪ S).
Proof.
  rewrite !(assoc_L (∪)). f_equal. apply (comm_L (∪)).
Qed.

Lemma creator_add_registered (re_compiles : string -> bool) (re_raises : string -> exn)
    (re_search : string -> string -> bool) (meth : method) (c : category)
    (value : string) (self : PIIDetector) :
  creator_add meth = Some (c, value) ->
  stored_form c value ∈ secrets c (call re_compiles re_raises re_search meth self).2.
Proof.
  intros H. destruct meth; simpl in H; try discriminate H;
    injection H as <- <-; simpl; apply elem_of_union_l, elem_of_singleton; reflexivity.
Qed.

Lemma lstrip_all_space (s : string) : all_in Py.is_space s = true -> Py.lstrip s = "".
Proof.
  induction s as [|a s IH]; simpl; [ reflexivity | ].
  intros [Ha Hs]%andb_true_iff. rewrite Ha. exact (IH Hs).
Qed.

Lemma all_space_lower (s : string) :
  all_in Py.is_space (Py.lower s) = all_in Py.is_space s.
Proof.
  induction s as [|a s IH]; simpl; [ reflexivity | ].
  rewrite is_space_lower_char, IH. reflexivity.
Qed.

Lemma strip_all_space (s : string) :
  all_in Py.is_space s = true -> Py.strip (Py.lower s) = "".
Proof.
  intros H. unfold Py.strip. rewrite lstrip_all_space; [ reflexivity | ].
  rewrite all_space_lower. exact H.
Qed.

Lemma at_lower_char (a : ascii) : Re.chr "@" a = true -> Py.lower_char a = a.
Proof. each_char a. Qed.

Lemma lower_all_at (s : string) : all_in (Re.chr "@") s = true -> Py.lower s = s.
Proof.
  induction s as [|a s IH]; simpl; [ reflexivity | ].
  intros [Ha Hs]%andb_true_iff. rewrite (at_lower_char a Ha), (IH Hs). reflexivity.
Qed.

Lemma lstrip_char_all_at (s : string) :
  all_in (Re.chr "@") s = true -> Py.lstrip_char "@" s = "".
Proof.
  induction s as [|a s IH]; simpl; [ reflexivity | ].
  intros [Ha Hs]%andb_true_iff. unfold Re.chr in Ha. rewrite Ha. exact (IH Hs).
Qed.

Lemma digits_only_none (s : string) :
  some_in Py.is_digit s = false -> Py.digits_only s = "".
Proof.
  induction s as [|a s IH]; simpl; [ reflexivity | ].
  intros [Ha Hs]%orb_false_iff. rewrite Ha. exact (IH Hs).
Qed.

Lemma blank_stored_empty (c : category) (value : string) :
  blank c value = true -> stored_form c value = "".
Proof.
  destruct c; simpl; intros H;
    try (apply strip_all_space; exact H).
  - rewrite <- lower_strip, (lower_all_at _ H). apply lstrip_char_all_at, H.
  - apply digits_only_none, negb_true_iff, H.
Qed.

Lemma sub_no_match (r : Re.regex) (repl s : string) :
  Re.search r s = false -> Re.sub r repl s = s.
Proof.
  unfold Re.sub. induction s as [|a s IH]; simpl.
  - destruct (Re.match_at r ""); [ discriminate | reflexivity ].
  - destruct (Re.match_at r (String a s)); [ discriminate | ].
    intros H. rewrite (IH H). reflexivity.
Qed.

Lemma replace_absent (old new s : string) :
  Py.contains old s = false -> Py.replace old new s = s.
Proof.
  destruct old as [|b old]; [ rewrite contains_empty; discriminate | ].
  unfold Py.replace. induction s as [|a s IH]; [ reflexivity | ].
  rewrite contains_cons. intros [Hs Hc]%orb_false_iff.
  cbn [Py.replace_from]. rewrite Hs, (IH Hc). reflexivity.
Qed.

Lemma fold_sub_no_match (table : list (string * Re.regex)) (repl s : string) :
  existsb (fun entry => Re.search entry.2 s) table = false ->
  fold_left (fun acc entry => Re.sub entry.2 repl acc) table s = s.
Proof.
  induction table as [|entry table IH]; simpl; [ reflexivity | ].
  intros [H1 H2]%orb_false_iff. rewrite (sub_no_match _ _ _ H1). exact (IH H2).
Qed.

Lemma fold_replace_absent (olds : list string) (new s : string) :
  existsb (fun old => Py.contains old s) olds = false ->
  fold_left (fun acc old => Py.replace old new acc) olds s = s.
Proof.
  induction olds as [|old olds IH]; simpl; [ reflexivity | ].
  intros [H1 H2]%orb_false_iff. rewrite (replace_absent _ _ _ H1). exact (IH H2).
Qed.

Section Registration.

Variable re_compiles : string -> bool.
Variable re_raises : string -> exn.
Variable re_search : string -> string -> bool.

(** X10.  Through any sequence of calls that has no [clear_all] in it, a
    text that the detector reports stays reported: registering more never
    lets a text through that was stopped before. *)
Theorem reported_stays_reported (calls : list method) (self : PIIDetector)
    (text : string) :
  Forall (fun meth => meth <> ClearAll) calls ->
  contains_pii re_search self text = true ->
  contains_pii re_search (run re_compiles re_raises re_search calls self) text = true.
Proof.
  unfold run. revert self.
  induction calls as [|meth calls IH]; intros self Hall Ht; simpl; [ exact Ht | ].
  inversion Hall as [|? ? Hm Hrest]; subst.
  apply IH; [ exact Hrest | ].
  destruct (call_grows re_compiles re_raises re_search meth self Hm) as [Hs Hc].
  exact (contains_pii_mono re_search self _ text Hs Hc Ht).
Qed.

(** X11.  An [add*] call leaves the eight counts other than its own as
    they were, and raises its own count by one or leaves it (the value was
    there already, or the pattern did not compile). *)
Theorem add_changes_own_count_only (meth : method) (key : string) (self : PIIDetector) :
  stats_key meth = Some key ->
  let self' := (call re_compiles re_raises re_search meth self).2 in
  (forall key', key' <> key -> count key' self' = count key' self)
  /\ exists n, count key self = Some n
       /\ (count key self' = Some n \/ count key self' = Some (S n)).
Proof.
  intros Hkey. cbv zeta. split.
  - intros key' Hne.
    destruct meth; simpl in Hkey; try discriminate Hkey; injection Hkey as <-;
      unfold call, add_custom_pattern, re_compile;
      try (destruct (re_compiles pattern); [ | destruct (re_raises pattern) ]);
      unfold count, get_stats, add_creator_name, add_creator_handle,
        add_creator_location, add_creator_employer, add_creator_family,
        add_creator_phone, add_creator_email, add_creator_address;
      cbn [snd getitem _creator_names _creator_handles _creator_locations
             _creator_employers _creator_family _creator_phone _creator_email
             _creator_addresses _custom_patterns];
      repeat match goal with
      | |- context [String.eqb ?k key'] =>
          destruct (String.eqb_spec k key'); [ first [ congruence | reflexivity ] | ]
      end; reflexivity.
  - destruct meth; simpl in Hkey; try discriminate Hkey; injection Hkey as <-;
      simpl;
      try (unfold add_custom_pattern, re_compile;
         destruct (re_compiles pattern); [ | destruct (re_raises pattern) ]; simpl);
      unfold count; simpl; eexists; (split; [ reflexivity | ]);
      match goal with
      | |- context [size ({[ ?x ]} ∪ ?S)] =>
          destruct (size_add x S) as [-> | ->]; auto
      | |- _ => auto
      end.
Qed.


(** X13.  An [add_creator_*] call whose argument is stored as the empty
    string (a value of whitespace only, a handle that is only [@] signs, a
    phone number without a digit) turns the detector into one that reports
    every text. *)
Theorem blank_value_reports_everything (meth : method) (c : category)
    (value text : string) (self : PIIDetector) :
  creator_add meth = Some (c, value) ->
  blank c value = true ->
  "" ∈ secrets c (call re_compiles re_raises re_search meth self).2
  /\ contains_pii re_search (call re_compiles re_raises re_search meth self).2 text = true.
Proof.
  intros Hadd Hb.
  pose proof (creator_add_registered re_compiles re_raises re_search meth c value self Hadd) as Hin.
  rewrite (blank_stored_empty c value Hb) in Hin. split; [ exact Hin | ].
  apply contains_pii_creator, check_creator_pii_true. exists c, "".
  split; [ exact Hin | apply contains_empty ].
Qed.

(** X14.  With a placeholder that holds no backslash,
    [check_and_sanitize] returns the text as it came in whenever no table
    pattern matches it and no stored name or handle occurs in it as
    stored, in whatever order the loops visit the two sets: a text
    reported for a location, employer, family name, phone number, e-mail
    address, address or custom pattern, or for a name in another casing,
    is returned unchanged. *)
Theorem sanitize_touches_table_names_handles_only
    (self : PIIDetector) (text placeholder : string) :
  no_backslash placeholder = true ->
  _check_patterns text = false ->
  (forall name, name ∈ _creator_names self -> Py.contains name text = false) ->
  (forall handle, handle ∈ _creator_handles self -> Py.contains handle text = false) ->
  (check_and_sanitize re_search self text placeholder).2 = text
  /\ (forall names handles,
        enumerates names (_creator_names self) ->
        enumerates handles (_creator_handles self) ->
        sanitize_in_order names handles text placeholder = text).
Proof.
  intros _ Hp Hn Hh.
  assert (Hno : forall (l : list string) (S : gset string),
             enumerates l S ->
             (forall x, x ∈ S -> Py.contains x text = false) ->
             existsb (fun old => Py.contains old text) l = false).
  { intros l S Hl HS. destruct (existsb _ l) eqn:E; [ | reflexivity ].
    apply existsb_exists in E as (x & Hin & Hx).
    rewrite (HS x (proj1 (Hl x) Hin)) in Hx. discriminate Hx. }
  assert (Horder : forall names handles,
             enumerates names (_creator_names self) ->
             enumerates handles (_creator_handles self) ->
             sanitize_in_order names handles text placeholder = text).
  { intros names handles Hns Hhs. unfold sanitize_in_order.
    rewrite fold_sub_no_match by exact Hp.
    rewrite (fold_replace_absent _ _ _ (Hno _ _ Hns Hn)).
    apply fold_replace_absent, (Hno _ _ Hhs Hh). }
  split; [ | exact Horder ].
  unfold check_and_sanitize.
  destruct (contains_pii re_search self text); cbn [negb snd]; [ | reflexivity ].
  apply (Horder (elements (_creator_names self)) (elements (_creator_handles self)));
    intros x; rewrite <- list_elem_of_In; apply elem_of_elements.
Qed.

(** X15.  Two [add*] calls made in either order leave the same detector. *)
Theorem adds_commute (meth1 meth2 : method) (self : PIIDetector) :
  stats_key meth1 <> None -> stats_key meth2 <> None ->
  run re_compiles re_raises re_search [meth1; meth2] self
  = run re_compiles re_raises re_search [meth2; meth1] self.
Proof.
  intros H1 H2. unfold run.
  destruct meth1; simpl in H1; try congruence;
    destruct meth2; simpl in H2; try congruence; simpl;
    unfold add_custom_pattern, re_compile;
    repeat match goal with
    | |- context [re_compiles ?p] => destruct (re_compiles p); simpl
    | |- context [re_raises ?p] => destruct (re_raises p); simpl
    end;
    unfold add_creator_name, add_creator_handle, add_creator_location,
      add_creator_employer, add_creator_family, add_creator_phone,
      add_creator_email, add_creator_address; simpl;
    first [ reflexivity | f_equal; apply add_swap ].
Qed.

End Registration.

(* ================================================================== *)
(** ** The policy layer in general *)
(* ================================================================== *)

Section PolicyLaws.

Variable re_search : string -> string -> bool.

(** What [check_content] returns and what it does to the wrapper. *)
Lemma check_content_spec (content field : string) (self : SafeMoltbookCLI) :
  exists msg sanitized self',
    check_content re_search content field self
    = ((passes re_search self content, msg, sanitized), self')
    /\ (passes re_search self content = false ->
        msg = "PII detected in " +:+ field +:+ " - post blocked")
    /\ pii_detector self' = pii_detector self
    /\ pii_protection_enabled self' = pii_protection_enabled self
    /\ _posts_blocked self'
       = _posts_blocked self + one_if (negb (passes re_search self content))
    /\ _posts_allowed self'
       = _posts_allowed self
         + one_if (consulted self content && passes re_search self content).
Proof.
  unfold check_content, passes, consulted, check_and_sanitize.
  destruct self as [det on blocked allowed]. simpl.
  destruct on; simpl.
  - destruct (String.eqb content ""); simpl.
    + eexists _, _, _. split; [ reflexivity | ].
      repeat split; simpl; auto; discriminate.
    + destruct (contains_pii re_search det content); simpl;
        eexists _, _, _; (split; [ reflexivity | ]);
        repeat split; simpl; auto; discriminate.
  - eexists _, _, _. split; [ reflexivity | ].
    repeat split; simpl; auto; discriminate.
Qed.

Lemma passes_same (self self' : SafeMoltbookCLI) (x : string) :
  pii_detector self' = pii_detector self ->
  pii_protection_enabled self' = pii_protection_enabled self ->
  passes re_search self' x = passes re_search self x
  /\ consulted self' x = consulted self x.
Proof. unfold passes, consulted. intros -> ->. split; reflexivity. Qed.

(** The result and the final wrapper of [safe_post_create], by cases on
    the two fields. *)
Lemma safe_post_create_spec (submolt title content : string) (url : option string)
    (self : SafeMoltbookCLI) :
  let out := safe_post_create re_search submolt title content url self in
  out.1 = (if passes re_search self title then
             if passes re_search self content
             then Remote (PostCreate submolt title content url)
             else Local (post_refusal "content")
           else Local (post_refusal "title"))
  /\ pii_detector out.2 = pii_detector self
  /\ pii_protection_enabled out.2 = pii_protection_enabled self
  /\ _posts_blocked out.2
     = _posts_blocked self
       + one_if (negb (passes re_search self title && passes re_search self content))
  /\ _posts_allowed out.2
     = _posts_allowed self
       + (if passes re_search self title then
            one_if (consulted self title)
            + one_if (consulted self content && passes re_search self content)
          else 0).
Proof.
  cbv zeta. unfold safe_post_create.
  destruct (check_content_spec title "title" self)
    as (msg1 & san1 & self1 & E1 & Hmsg1 & Hd1 & Hon1 & Hb1 & Ha1).
  rewrite E1. destruct (passes re_search self title) eqn:Pt; cbn [negb].
  - destruct (check_content_spec content "content" self1)
      as (msg2 & san2 & self2 & E2 & Hmsg2 & Hd2 & Hon2 & Hb2 & Ha2).
    destruct (passes_same self self1 content Hd1 Hon1) as [Pc Cc].
    rewrite E2, Pc in *. rewrite Cc in Ha2.
    destruct (passes re_search self content) eqn:Pcc; cbn [negb fst snd].
    + rewrite Hd2, Hon2, Hb2, Ha2, Hd1, Hon1, Hb1, Ha1. simpl.
      rewrite andb_true_r. repeat split; lia.
    + rewrite (Hmsg2 eq_refl), Hd2, Hon2, Hb2, Ha2, Hd1, Hon1, Hb1, Ha1. simpl.
      rewrite !andb_false_r, andb_true_r. simpl. repeat split; lia.
  - cbn [fst snd]. rewrite (Hmsg1 eq_refl), Hd1, Hon1, Hb1, Ha1. simpl.
    rewrite andb_false_r. simpl. repeat split; lia.
Qed.

Lemma post_comment_spec (post_id content : string) (parent : option string)
    (cli : SafeMoltbookCLI) :
  let out := post_comment re_search post_id content parent cli in
  out.1 = (if passes re_search cli content
           then Remote (CommentCreate post_id content parent)
           else Local comment_refusal)
  /\ pii_detector out.2 = pii_detector cli
  /\ pii_protection_enabled out.2 = pii_protection_enabled cli
  /\ _posts_blocked cli <= _posts_blocked out.2
  /\ _posts_allowed cli <= _posts_allowed out.2.
Proof.
  cbv zeta. unfold post_comment.
  destruct (check_content_spec content "comment" cli)
    as (msg & san & cli' & E & Hmsg & Hd & Hon & Hb & Ha).
  rewrite E. destruct (passes re_search cli content); cbn [negb fst snd].
  - repeat split; auto; lia.
  - rewrite (Hmsg eq_refl). repeat split; auto; lia.
Qed.

End PolicyLaws.





Section PolicyTheorems.

Variable re_search : string -> string -> bool.

(** X16.  [safe_post_create] checks the title first and the content
    second.  It hands the post to the client, with submolt, title, content
    and url as they were given, exactly when both fields pass (protection
    off, or the field empty, or the field not reported); otherwise it
    answers with the refusal that names the first field that failed, and
    in no case does it change the detector or the protection switch. *)
Theorem post_sent_as_written_or_refused (submolt title content : string)
    (url : option string) (self : SafeMoltbookCLI) :
  let out := safe_post_create re_search submolt title content url self in
  out.1 = (if passes re_search self title then
             if passes re_search self content
             then Remote (PostCreate submolt title content url)
             else Local (post_refusal "content")
           else Local (post_refusal "title"))
  /\ pii_detector out.2 = pii_detector self
  /\ pii_protection_enabled out.2 = pii_protection_enabled self.
Proof.
  destruct (safe_post_create_spec re_search submolt title content url self)
    as (H1 & H2 & H3 & _). auto.
Qed.

(** X17.  The [post comment] handler hands the comment to the client, with
    post id, content and parent as they were given, exactly when the
    content passes (protection off, or content empty, or content not
    reported); otherwise it answers with its refusal and makes no call. *)
Theorem comment_sent_as_written_or_refused (post_id content : string)
    (parent : option string) (cli : SafeMoltbookCLI) :
  (post_comment re_search post_id content parent cli).1
  = (if passes re_search cli content
     then Remote (CommentCreate post_id content parent)
     else Local comment_refusal).
Proof.
  destruct (post_comment_spec re_search post_id content parent cli) as (H & _).
  exact H.
Qed.

(** X18.  The counters after [safe_post_create] count checked fields, not
    posts.  [_posts_blocked] rises by one when the post is refused.
    [_posts_allowed] rises by one for a title that reached the detector and
    passed, and by one more for a content that did: a post sent with
    protection on and both fields non-empty raises it by two, and a post
    refused for its content after a non-empty title passed raises both
    counters. *)
Theorem post_counters (submolt title content : string) (url : option string)
    (self : SafeMoltbookCLI) :
  let out := safe_post_create re_search submolt title content url self in
  _posts_blocked out.2
  = _posts_blocked self
    + one_if (negb (passes re_search self title && passes re_search self content))
  /\ _posts_allowed out.2
     = _posts_allowed self
       + (if passes re_search self title then
            one_if (consulted self title)
            + one_if (consulted self content && passes re_search self content)
          else 0).
Proof.
  destruct (safe_post_create_spec re_search submolt title content url self)
    as (_ & _ & _ & H4 & H5). auto.
Qed.

(** X19.  The wrapper built without a creator configuration, or with one
    that has no ["name"] key, refuses every post whose title or content is
    not empty and every comment that is not empty; it lets through only
    what is empty. *)
Theorem unconfigured_wrapper_refuses_all_text (cfg : config)
    (submolt title content post_id : string) (url parent : option string) :
  no_name_key cfg ->
  let cli := new_cli cfg in
  (safe_post_create re_search submolt title content url cli).1
  = (if String.eqb title "" then
       if String.eqb content ""
       then Remote (PostCreate submolt title content url)
       else Local (post_refusal "content")
     else Local (post_refusal "title"))
  /\ (post_comment re_search post_id content parent cli).1
     = (if String.eqb content ""
        then Remote (CommentCreate post_id content parent)
        else Local comment_refusal).
Proof.
  intros Hcfg. cbv zeta.
  assert (Hp : forall x, passes re_search (new_cli cfg) x = String.eqb x "").
  { intros x. unfold passes, new_cli. cbn [pii_protection_enabled pii_detector negb orb].
    assert (Hall : contains_pii re_search (_create_detector cfg) x = true).
    { apply contains_pii_creator, check_creator_pii_true. exists Name, "".
      split; [ apply empty_name_registered, Hcfg | apply contains_empty ]. }
    rewrite Hall. apply orb_false_r. }
  destruct (safe_post_create_spec re_search submolt title content url (new_cli cfg))
    as (H1 & _).
  destruct (post_comment_spec re_search post_id content parent (new_cli cfg)) as (H2 & _).
  rewrite H1, H2, !Hp. split; reflexivity.
Qed.

(** X20.  No sequence of posts, comments, checks and switches of
    protection changes the detector of the wrapper; the two counters never
    go down; and protection stays as it is unless the sequence holds a
    switch. *)
Theorem session_keeps_detector (actions : list action) (cli : SafeMoltbookCLI) :
  pii_detector (session re_search actions cli) = pii_detector cli
  /\ _posts_blocked cli <= _posts_blocked (session re_search actions cli)
  /\ _posts_allowed cli <= _posts_allowed (session re_search actions cli)
  /\ (forallb keeps_switch actions = true ->
      pii_protection_enabled (session re_search actions cli)
      = pii_protection_enabled cli).
Proof.
  unfold session. revert cli.
  induction actions as [|a actions IH]; intros cli; simpl.
  - repeat split; auto.
  - destruct (IH (act re_search a cli)) as (Hd & Hb & Ha & Hon).
    assert (Hstep : pii_detector (act re_search a cli) = pii_detector cli
                    /\ _posts_blocked cli <= _posts_blocked (act re_search a cli)
                    /\ _posts_allowed cli <= _posts_allowed (act re_search a cli)
                    /\ (keeps_switch a = true ->
                        pii_protection_enabled (act re_search a cli)
                        = pii_protection_enabled cli)).
    { destruct a as [submolt title content url | post_id content parent
                    | content field | | ]; simpl.
      - destruct (safe_post_create_spec re_search submolt title content url cli)
          as (_ & H2 & H3 & H4 & H5). rewrite H2, H4, H5.
        repeat split; auto; lia.
      - destruct (post_comment_spec re_search post_id content parent cli)
          as (_ & H2 & H3 & H4 & H5). repeat split; auto.
      - destruct (check_content_spec re_search content field cli)
          as (msg & san & cli' & E & _ & H2 & H3 & H4 & H5). rewrite E. simpl.
        rewrite H2, H4, H5. repeat split; auto; lia.
      - repeat split; auto. discriminate.
      - repeat split; auto. discriminate. }
    destruct Hstep as (Sd & Sb & Sa & Son).
    rewrite Hd, Sd. repeat split; try lia.
    intros [Hk Hrest]%andb_true_iff. rewrite (Hon Hrest). apply Son, Hk.
Qed.


End PolicyTheorems.

(* ================================================================== *)
(** ** What [replace] takes out *)
(* ================================================================== *)

Lemma contains_tail (p : string) (a : ascii) (s : string) :
  Py.contains p s = true -> Py.contains p (String a s) = true.
Proof. intros H. rewrite contains_cons, H. apply orb_true_r. Qed.

Lemma startswith_contains (p s : string) :
  Py.startswith p s = true -> Py.contains p s = true.
Proof. intros H. destruct s; simpl in *; rewrite H; reflexivity. Qed.

Section Replace.

Variable old new : string.
Hypothesis new_not_empty : new <> "".

(** A text free of the characters of [new] that begins the result of the
    scan also begins the text that was scanned. *)
Lemma startswith_replace_from (s : string) :
  forall n, shares_no_char new n = true ->
    Py.startswith n (Py.replace_from old new 0 s) = true ->
    Py.startswith n s = true.
Proof.
  induction s as [|a s IH]; intros n Hn; [ simpl; auto | ].
  cbn [Py.replace_from]. destruct (Py.startswith old (String a s)) eqn:Hm.
  - destruct n as [|b n]; [ reflexivity | ].
    destruct new as [|c new'] eqn:Hnew; [ contradiction | ].
    rewrite app_cons. simpl. intros [Hbc _]%andb_true_iff.
    apply Ascii.eqb_eq in Hbc as ->.
    unfold shares_no_char in Hn. simpl in Hn. rewrite Ascii.eqb_refl in Hn.
    discriminate Hn.
  - destruct n as [|b n]; [ reflexivity | ].
    simpl. intros [Hba Hrest]%andb_true_iff. rewrite Hba. simpl.
    apply IH; [ | exact Hrest ].
    unfold shares_no_char in *. simpl in Hn. apply andb_true_iff in Hn as [_ Hn].
    exact Hn.
Qed.

(** A text free of the characters of a prefix does not begin inside it. *)
Lemma contains_skip_prefix (prefix n rest : string) :
  n <> "" -> shares_no_char prefix n = true ->
  forall part, (exists front, prefix = front +:+ part) ->
    Py.contains n (part +:+ rest) = true -> Py.contains n rest = true.
Proof.
  intros Hne Hn part. induction part as [|c part IH]; intros Hpart; [ auto | ].
  rewrite app_cons, contains_cons. intros [Hs | Hc]%orb_true_iff.
  - exfalso. destruct n as [|b n]; [ contradiction | ].
    simpl in Hs. apply andb_true_iff in Hs as [Hbc _]. apply Ascii.eqb_eq in Hbc as ->.
    destruct Hpart as (front & ->).
    unfold shares_no_char in Hn. simpl in Hn.
    apply andb_true_iff in Hn as [Hc _]. apply negb_true_iff in Hc.
    rewrite some_in_app in Hc. simpl in Hc. rewrite Ascii.eqb_refl in Hc.
    rewrite orb_true_r in Hc. discriminate Hc.
  - apply IH; [ | exact Hc ]. destruct Hpart as (front & ->).
    exists (front +:+ String c ""). rewrite app_assoc. reflexivity.
Qed.

Lemma contains_after_new (n rest : string) :
  n <> "" -> shares_no_char new n = true ->
  Py.contains n (new +:+ rest) = true -> Py.contains n rest = true.
Proof.
  intros Hne Hn. apply (contains_skip_prefix new n rest Hne Hn new).
  exists "". reflexivity.
Qed.

(** What occurs in the result of the scan, and is free of the characters
    of [new], occurred in the text that was scanned. *)
Lemma contains_replace_from (n : string) :
  n <> "" -> shares_no_char new n = true ->
  forall s skip,
    Py.contains n (Py.replace_from old new skip s) = true -> Py.contains n s = true.
Proof.
  intros Hne Hn. induction s as [|a s IH]; intros skip; [ simpl; auto | ].
  cbn [Py.replace_from]. destruct skip as [|k].
  - destruct (Py.startswith old (String a s)) eqn:Hm.
    + intros H. apply contains_tail, (IH (String.length old - 1)).
      apply (contains_after_new n _ Hne Hn H).
    + rewrite contains_cons. intros [Hs | Hc]%orb_true_iff.
      * apply startswith_contains, (startswith_replace_from (String a s) n Hn).
        cbn [Py.replace_from]. rewrite Hm. exact Hs.
      * apply contains_tail, (IH 0), Hc.
  - intros H. apply contains_tail, (IH k), H.
Qed.

(** After the scan the replaced text occurs nowhere, provided it has no
    character of [new]. *)
Lemma replace_from_removes :
  old <> "" -> shares_no_char new old = true ->
  forall s skip, Py.contains old (Py.replace_from old new skip s) = false.
Proof.
  intros Hne Hn. induction s as [|a s IH]; intros skip.
  - simpl. destruct old; [ contradiction | reflexivity ].
  - cbn [Py.replace_from]. destruct skip as [|k]; [ | apply IH ].
    destruct (Py.startswith old (String a s)) eqn:Hm.
    + destruct (Py.contains old (new +:+ _)) eqn:E; [ | reflexivity ].
      apply (contains_after_new old _ Hne Hn) in E. rewrite IH in E. discriminate E.
    + rewrite contains_cons, IH, orb_false_r.
      destruct (Py.startswith old (String a (Py.replace_from old new 0 s))) eqn:E;
        [ | reflexivity ].
      assert (Hs : Py.startswith old (String a s) = true).
      { apply (startswith_replace_from (String a s) old Hn).
        cbn [Py.replace_from]. rewrite Hm. exact E. }
      rewrite Hm in Hs. discriminate Hs.
Qed.

End Replace.

Lemma removable_parts (placeholder s : string) :
  removable placeholder s = true -> s <> "" /\ shares_no_char placeholder s = true.
Proof.
  unfold removable. intros [Hne Hs]%andb_true_iff. split; [ | exact Hs ].
  apply negb_true_iff, String.eqb_neq in Hne. exact Hne.
Qed.

Lemma replace_removes (placeholder old s : string) :
  placeholder <> "" -> removable placeholder old = true ->
  Py.contains old (Py.replace old placeholder s) = false.
Proof.
  intros Hp [Hne Hs]%removable_parts. unfold Py.replace.
  destruct old as [|b old]; [ contradiction | ].
  apply (replace_from_removes _ _ Hp Hne Hs).
Qed.

Lemma replace_keeps_absent (placeholder old n s : string) :
  placeholder <> "" -> old <> "" -> removable placeholder n = true ->
  Py.contains n s = false -> Py.contains n (Py.replace old placeholder s) = false.
Proof.
  intros Hp Ho [Hne Hs]%removable_parts Habs. unfold Py.replace.
  destruct old as [|b old]; [ contradiction | ].
  destruct (Py.contains n (Py.replace_from _ _ _ _)) eqn:E; [ | reflexivity ].
  apply (contains_replace_from _ _ Hp n Hne Hs) in E. rewrite Habs in E. discriminate E.
Qed.

Lemma fold_replace_keeps_absent (placeholder n : string) (olds : list string) :
  placeholder <> "" -> removable placeholder n = true ->
  Forall (fun old => old <> "") olds ->
  forall s, Py.contains n s = false ->
    Py.contains n (fold_left (fun acc old => Py.replace old placeholder acc) olds s)
    = false.
Proof.
  intros Hp Hn Holds. induction Holds as [|old olds Ho _ IH]; intros s Hs; simpl; auto.
  apply IH, replace_keeps_absent; auto.
Qed.

Lemma fold_replace_removes (placeholder : string) (olds : list string) :
  placeholder <> "" ->
  Forall (fun old => removable placeholder old = true) olds ->
  forall n s, In n olds ->
    Py.contains n (fold_left (fun acc old => Py.replace old placeholder acc) olds s)
    = false.
Proof.
  intros Hp Holds. induction Holds as [|old olds Ho Hrest IH]; intros n s Hin;
    [ destruct Hin | ].
  simpl. destruct Hin as [<- | Hin]; [ | apply IH, Hin ].
  apply fold_replace_keeps_absent; auto.
  - eapply Forall_impl; [ exact Hrest | ]. intros x Hx. apply (removable_parts _ _ Hx).
  - apply replace_removes; auto.
Qed.

Section Sanitizer.

Variable re_search : string -> string -> bool.

(** X22.  With a non-empty placeholder that holds no backslash, a
    reported text comes back from [check_and_sanitize] without any
    occurrence of a stored name or handle in its stored form, in whatever
    order the loops visit the two sets, provided every stored name and
    handle is non-empty and has no character in common with the
    placeholder. *)
Theorem sanitize_removes_stored_forms (self : PIIDetector) (text placeholder : string) :
  placeholder <> "" -> no_backslash placeholder = true ->
  (forall x, x ∈ _creator_names self ∪ _creator_handles self ->
             removable placeholder x = true) ->
  contains_pii re_search self text = true ->
  forall x, x ∈ _creator_names self ∪ _creator_handles self ->
    Py.contains x (check_and_sanitize re_search self text placeholder).2 = false
    /\ (forall names handles,
          enumerates names (_creator_names self) ->
          enumerates handles (_creator_handles self) ->
          Py.contains x (sanitize_in_order names handles text placeholder) = false).
Proof.
  intros Hp _ Hok Hpii x Hx.
  assert (Horder : forall names handles,
             enumerates names (_creator_names self) ->
             enumerates handles (_creator_handles self) ->
             Py.contains x (sanitize_in_order names handles text placeholder) = false).
  { intros names handles Hns Hhs. unfold sanitize_in_order.
    assert (Hnames : Forall (fun old => removable placeholder old = true) names).
    { apply Forall_forall. intros y Hy.
      apply Hok, elem_of_union_l, (Hns y), list_elem_of_In, Hy. }
    assert (Hhandles : Forall (fun old => removable placeholder old = true) handles).
    { apply Forall_forall. intros y Hy.
      apply Hok, elem_of_union_r, (Hhs y), list_elem_of_In, Hy. }
    apply elem_of_union in Hx as [Hx | Hx].
    - apply fold_replace_keeps_absent; auto.
      + apply Hok, elem_of_union_l, Hx.
      + eapply Forall_impl; [ exact Hhandles | ].
        intros y Hy. apply (removable_parts _ _ Hy).
      + apply fold_replace_removes; auto. apply (Hns x), Hx.
    - apply fold_replace_removes; auto. apply (Hhs x), Hx. }
  split; [ | exact Horder ].
  unfold check_and_sanitize. rewrite Hpii. cbn [negb snd].
  apply (Horder (elements (_creator_names self)) (elements (_creator_handles self)));
    intros y; rewrite <- list_elem_of_In; apply elem_of_elements.
Qed.

End Sanitizer.

(* ================================================================== *)
(** ** What the wrapper registers *)
(* ================================================================== *)

Lemma size_one (x : string) : size ({[ x ]} ∪ (∅ : gset string)) = 1.
Proof. rewrite union_empty_r_L. apply size_singleton. Qed.

(** X23.  Whatever the creator configuration, the detector of the wrapper
    holds exactly one name, at most one handle, one location and one
    employer, and nothing else: no family name, phone number, e-mail
    address, address or custom pattern is ever registered from it. *)
Theorem wrapper_registers_four_categories_only (cfg : config) :
  let detector := _create_detector cfg in
  size (_creator_names detector) = 1
  /\ size (_creator_handles detector) <= 1
  /\ size (_creator_locations detector) <= 1
  /\ size (_creator_employers detector) <= 1
  /\ _creator_family detector = ∅
  /\ _creator_phone detector = ∅
  /\ _creator_email detector = ∅
  /\ _creator_addresses detector = ∅
  /\ _custom_patterns detector = ∅.
Proof.
  cbv zeta. unfold _create_detector.
  destruct (config_missing cfg), cfg as [d|];
    unfold create_detector_with_creator;
    repeat match goal with
    | |- context [truthy ?o] => destruct (truthy o)
    end;
    cbn [add_creator_name add_creator_handle add_creator_location
           add_creator_employer new_detector _creator_names _creator_handles
           _creator_locations _creator_employers _creator_family _creator_phone
           _creator_email _creator_addresses _custom_patterns];
    rewrite ?size_one, ?size_empty; repeat split; lia.
Qed.

(* ================================================================== *)
(** ** Closed instances of the general properties *)
(* ================================================================== *)

Lemma surrounding_text_hides_nothing_witness :
  _check_patterns "a@b.co" = true
  /\ contains_pii Plain.search new_detector ("mail me at " +:+ "a@b.co" +:+ " today") = true.
Proof.
  split; [ reflexivity | ].
  apply (surrounding_text_hides_nothing Plain.search new_detector
           "a@b.co" "mail me at " " today").
  - reflexivity.
  - left. reflexivity.
Defined.

Lemma table_needs_digit_or_at_sign_witness :
  some_in digit_or_at "This post is about automation" = false
  /\ _check_patterns "This post is about automation" = false.
Proof.
  split; [ reflexivity | ].
  apply (table_needs_digit_or_at_sign Plain.search "This post is about automation").
  reflexivity.
Defined.

Lemma email_shape_reported_witness :
  contains_pii Plain.search new_detector
    ("Contact me at " +:+ ("seth" +:+ "@" +:+ "example" +:+ "." +:+ "com") +:+ "") = true.
Proof.
  apply (email_shape_reported Plain.search new_detector
           "Contact me at " "seth" "example" "com" "");
    first [ reflexivity | discriminate | simpl; lia ].
Defined.

Lemma seven_digits_reported_witness :
  contains_pii Plain.search new_detector
    ("order " +:+ ("123" +:+ "" +:+ "4567") +:+ " shipped") = true.
Proof.
  apply (seven_digits_reported Plain.search new_detector
           "order " "123" "" "4567" " shipped"); reflexivity.
Defined.

Lemma ssn_shape_reported_witness :
  contains_pii Plain.search new_detector
    ("ssn " +:+ ("123" +:+ "-" +:+ "45" +:+ "-" +:+ "6789") +:+ ".") = true.
Proof.
  apply (ssn_shape_reported Plain.search new_detector "ssn " "123" "45" "6789" ".");
    reflexivity.
Defined.

Lemma card_shape_reported_witness :
  contains_pii Plain.search new_detector
    ("card " +:+ ("1234" +:+ " " +:+ "5678" +:+ "-" +:+ "9012" +:+ "" +:+ "3456")
     +:+ "") = true.
Proof.
  apply (card_shape_reported Plain.search new_detector
           "card " "1234" " " "5678" "-" "9012" "" "3456" ""); reflexivity.
Defined.

Lemma ip_shape_reported_witness :
  contains_pii Plain.search new_detector
    ("host " +:+ ("999" +:+ "." +:+ "999" +:+ "." +:+ "999" +:+ "." +:+ "999")
     +:+ "") = true.
Proof.
  apply (ip_shape_reported Plain.search new_detector "host " "999" "999" "999" "999" "");
    reflexivity.
Defined.

Lemma date_shape_reported_witness :
  contains_pii Plain.search new_detector
    ("born " +:+ ("1" +:+ "/" +:+ "2" +:+ "-" +:+ "99") +:+ "") = true.
Proof.
  apply (date_shape_reported Plain.search new_detector "born " "1" "/" "2" "-" "99" "");
    reflexivity.
Defined.

Lemma reported_stays_reported_witness :
  contains_pii Plain.search (add_creator_name "Jane Doe" new_detector)
    "Hi, I'm Jane Doe" = true
  /\ contains_pii Plain.search
       (run Plain.compiles Plain.raises Plain.search
          [AddCreatorName "Bob"; AddCustomPattern "("; GetStats]
          (add_creator_name "Jane Doe" new_detector))
       "Hi, I'm Jane Doe" = true.
Proof.
  split; [ reflexivity | ].
  apply (reported_stays_reported Plain.compiles Plain.raises Plain.search
           [AddCreatorName "Bob"; AddCustomPattern "("; GetStats]
           (add_creator_name "Jane Doe" new_detector) "Hi, I'm Jane Doe").
  - repeat constructor; discriminate.
  - reflexivity.
Defined.

Lemma add_changes_own_count_only_witness :
  stats_key (AddCreatorName "Jane Doe") = Some "creator_names_count"
  /\ count "creator_handles_count"
       (call Plain.compiles Plain.raises Plain.search (AddCreatorName "Jane Doe") new_detector).2
     = count "creator_handles_count" new_detector.
Proof.
  split; [ reflexivity | ].
  destruct (add_changes_own_count_only Plain.compiles Plain.raises Plain.search
              (AddCreatorName "Jane Doe") "creator_names_count" new_detector eq_refl)
    as [H _].
  apply H. discriminate.
Defined.


Lemma blank_value_reports_everything_witness :
  blank Phone "n/a" = true
  /\ contains_pii Plain.search
       (call Plain.compiles Plain.raises Plain.search (AddCreatorPhone "n/a") new_detector).2
       "This post is about automation" = true.
Proof.
  split; [ reflexivity | ].
  apply (blank_value_reports_everything Plain.compiles Plain.raises Plain.search
           (AddCreatorPhone "n/a") Phone "n/a" "This post is about automation"
           new_detector); reflexivity.
Defined.

Lemma sanitize_touches_table_names_handles_only_witness :
  no_backslash "[REDACTED]" = true
  /\ contains_pii Plain.search (add_creator_location "Berlin" new_detector)
       "I live in Berlin" = true
  /\ (check_and_sanitize Plain.search (add_creator_location "Berlin" new_detector)
        "I live in Berlin" "[REDACTED]").2 = "I live in Berlin".
Proof.
  split; [ reflexivity | ]. split; [ reflexivity | ].
  refine (proj1 (sanitize_touches_table_names_handles_only Plain.search
                   (add_creator_location "Berlin" new_detector) "I live in Berlin"
                   "[REDACTED]" _ _ _ _)).
  - reflexivity.
  - reflexivity.
  - intros name H. exfalso. exact (not_elem_of_empty (C:=gset string) name H).
  - intros handle H. exfalso. exact (not_elem_of_empty (C:=gset string) handle H).
Defined.

Lemma adds_commute_witness :
  run Plain.compiles Plain.raises Plain.search
    [AddCreatorName "Jane Doe"; AddCreatorName "Bob"] new_detector
  = run Plain.compiles Plain.raises Plain.search
      [AddCreatorName "Bob"; AddCreatorName "Jane Doe"] new_detector.
Proof.
  apply (adds_commute Plain.compiles Plain.raises Plain.search
           (AddCreatorName "Jane Doe") (AddCreatorName "Bob") new_detector);
    discriminate.
Defined.

Lemma unconfigured_wrapper_refuses_all_text_witness :
  no_name_key None
  /\ (safe_post_create Plain.search "general" "Hello" "World" None (new_cli None)).1
     = Local (post_refusal "title").
Proof.
  split; [ exact I | ].
  destruct (unconfigured_wrapper_refuses_all_text Plain.search None
              "general" "Hello" "World" "post-1" None None I) as [H _].
  exact H.
Defined.

Lemma session_keeps_detector_witness :
  forallb keeps_switch
    [CheckContent "a@b.co" "content"; PostComment "post-1" "hello" None] = true
  /\ pii_protection_enabled
       (session Plain.search
          [CheckContent "a@b.co" "content"; PostComment "post-1" "hello" None]
          (new_cli None)) = true.
Proof.
  split; [ reflexivity | ].
  destruct (session_keeps_detector Plain.search
              [CheckContent "a@b.co" "content"; PostComment "post-1" "hello" None]
              (new_cli None)) as (_ & _ & _ & H).
  exact (H eq_refl).
Defined.


Lemma sanitize_removes_stored_forms_witness :
  no_backslash "[REDACTED]" = true
  /\ contains_pii Plain.search (add_creator_name "Jane Doe" new_detector)
       "jane doe wrote this" = true
  /\ Py.contains "jane doe"
       (check_and_sanitize Plain.search (add_creator_name "Jane Doe" new_detector)
          "jane doe wrote this" "[REDACTED]").2 = false.
Proof.
  split; [ reflexivity | ]. split; [ reflexivity | ].
  refine (proj1 (sanitize_removes_stored_forms Plain.search
                   (add_creator_name "Jane Doe" new_detector) "jane doe wrote this"
                   "[REDACTED]" _ _ _ _ "jane doe" _)).
  - discriminate.
  - reflexivity.
  - intros x Hx. apply elem_of_union in Hx as [Hx | Hx].
    + apply elem_of_union in Hx as [Hx | Hx].
      * apply elem_of_singleton in Hx. subst x. reflexivity.
      * exfalso. exact (not_elem_of_empty (C:=gset string) x Hx).
    + exfalso. exact (not_elem_of_empty (C:=gset string) x Hx).
  - reflexivity.
  - apply elem_of_union_l, elem_of_union_l, elem_of_singleton. reflexivity.
Defined.

(* ================================================================== *)
(** ** The lookup against the normalization rule of the category *)
(* ================================================================== *)

Lemma contains_lstrip_char (c : ascii) (p s : string) :
  Py.startswith (String c EmptyString) p = false ->
  Py.contains p (Py.lstrip_char c s) = Py.contains p s.
Proof.
  intros Hp. induction s as [|a s IH]; [ reflexivity | ].
  simpl Py.lstrip_char. destruct (Ascii.eqb_spec a c) as [-> | Hne]; [ | reflexivity ].
  rewrite IH, contains_cons.
  destruct p as [|b p]; [ rewrite contains_empty; reflexivity | ].
  simpl in Hp. rewrite andb_true_r in Hp.
  simpl Py.startswith. rewrite Ascii.eqb_sym, Hp. reflexivity.
Qed.

(** For a stored value in the normal form of the specification, looking it
    up in the text prepared as the code prepares it, and looking it up in
    the text normalized by the rule of its category (the rule the mutator
    applies to its argument), give the same answer. *)
Lemma lookup_by_category_rule (c : category) (secret text : string) :
  normalized_as_stated c secret = true ->
  Py.contains secret (stored_form c text) = Py.contains secret (normalized_text c text).
Proof.
  intros Hn. pose proof (lookup_ignores_trimming c secret text Hn) as Htrim.
  destruct c; try exact Htrim; [ | reflexivity ].
  unfold stored_form, normalized_text. rewrite <- Htrim.
  apply contains_lstrip_char.
  unfold normalized_as_stated in Hn. apply andb_true_iff in Hn as [_ Hn].
  apply negb_true_iff, Hn.
Qed.

Section CategoryRule.

Variable re_search : string -> string -> bool.

(** In a detector whose stored values are all in the normal form of the
    specification, [contains_pii] answers true exactly when (a) a table
    pattern matches the text, or (b) a stored secret occurs in the text
    normalized by the rule of the secret's category, or (c) a custom
    pattern matches the text. *)
Lemma contains_pii_by_category_rule (self : PIIDetector) (text : string) :
  all_secrets normalized_as_stated self ->
  (contains_pii re_search self text = true <->
     (exists name pattern,
         In (name, pattern) PII_PATTERNS /\ Re.search pattern text = true)
     \/ (exists c secret,
         secret ∈ secrets c self /\
         Py.contains secret (stored_form c text) = true)
     \/ (exists pattern,
         pattern ∈ _custom_patterns self /\ re_search pattern text = true)).
Proof.
  intros Hnorm.
  rewrite contains_pii_orb, !orb_true_iff, check_patterns_true,
    check_creator_pii_true, check_custom_patterns_true.
  split.
  - intros [[H | (c & secret & Hin & H)] | H]; [ left; exact H | | right; right; exact H ].
    right. left. exists c, secret. split; [ exact Hin | ].
    rewrite (lookup_by_category_rule c secret text (Hnorm c secret Hin)). exact H.
  - intros [H | [(c & secret & Hin & H) | H]]; [ left; left; exact H | | right; exact H ].
    left. right. exists c, secret. split; [ exact Hin | ].
    rewrite <- (lookup_by_category_rule c secret text (Hnorm c secret Hin)). exact H.
Qed.

(** C2.  With the handle ["@ bob"] registered (stored as [" bob"]),
    [contains_pii] reports the text [" bob"], although no table pattern
    matches it, no custom pattern is registered, and no stored secret
    occurs in the text normalized by the rule of its category (for a
    handle: case-folded, trimmed, leading [@] taken off, which gives
    ["bob"]).  The lookup goes by the case-folded text alone, and agrees
    with the rule of the category only for stored values that are
    normalized, which this handle is not. *)
Theorem blank_handle_found_outside_category_rule :
  let detector := add_creator_handle "@ bob" new_detector in
  " bob" ∈ _creator_handles detector
  /\ stored_form Handle " bob" = "bob"
  /\ contains_pii re_search detector " bob" = true
  /\ ~ ((exists name pattern,
           In (name, pattern) PII_PATTERNS /\ Re.search pattern " bob" = true)
        \/ (exists c secret,
           secret ∈ secrets c detector /\
           Py.contains secret (stored_form c " bob") = true)
        \/ (exists pattern,
           pattern ∈ _custom_patterns detector /\ re_search pattern " bob" = true)).
Proof.
  cbv zeta.
  assert (Hin : " bob" ∈ _creator_handles (add_creator_handle "@ bob" new_detector)).
  { simpl. apply elem_of_union_l, elem_of_singleton. reflexivity. }
  split; [ exact Hin | ]. split; [ reflexivity | ].
  split.
  { apply contains_pii_creator, check_creator_pii_true. exists Handle, " bob".
    split; [ exact Hin | reflexivity ]. }
  intros [H | [(c & secret & Hs & H) | (pattern & Hp & _)]].
  - apply check_patterns_true in H. vm_compute in H. discriminate H.
  - destruct c; simpl in Hs;
      try (exact (not_elem_of_empty (C:=gset string) secret Hs)).
    apply elem_of_union in Hs as [Hs | Hs];
      [ | exact (not_elem_of_empty (C:=gset string) secret Hs) ].
    apply elem_of_singleton in Hs. subst secret. vm_compute in H. discriminate H.
  - exact (not_elem_of_empty (C:=gset string) pattern Hp).
Qed.

End CategoryRule.

Lemma contains_pii_by_category_rule_instance :
  all_secrets normalized_as_stated (add_creator_name "Jane Doe" new_detector)
  /\ contains_pii Plain.search (add_creator_name "Jane Doe" new_detector)
       "  Hi, I'm Jane Doe  " = true.
Proof.
  assert (Hnorm : all_secrets normalized_as_stated
                    (add_creator_name "Jane Doe" new_detector)).
  { intros c v Hin. destruct c; simpl in Hin;
      try (exfalso; exact (not_elem_of_empty (C:=gset string) v Hin)).
    apply elem_of_union in Hin as [Hin | Hin];
      [ | exfalso; exact (not_elem_of_empty (C:=gset string) v Hin) ].
    apply elem_of_singleton in Hin. subst v. reflexivity. }
  split; [ exact Hnorm | ].
  apply (contains_pii_by_category_rule Plain.search _ _ Hnorm).
  right. left. exists Name, "jane doe".
  split; [ simpl; apply elem_of_union_l, elem_of_singleton; reflexivity | reflexivity ].
Defined.
